(** * tax_tool: joint federal tax estimate and per-spouse withholding targets

    A shallow embedding of [tax_tool.py].

    Number models.  A Python [int] is a [Z].  A Python [float] is modelled
    twice.

    - The exact model takes a float for the rational it stands for ([Q]): no
      operation rounds or overflows, and the one non-finite float of the
      source, the [float("inf")] that closes the bracket table, is the
      constructor [Infinity] of [limit].  It carries the statements that do
      not depend on rounding: the order of two taxes, amounts that are zero,
      two runs that agree, the records, the dictionary, the strings and the
      exceptions of the guards.  An equation between amounts there is an
      equation of exact arithmetic ([==] on [Q]).

    - The module [Binary64] transcribes the same functions on binary64 floats
      ([PrimFloat]), every operation rounded as Python rounds it, with the
      [OverflowError] of an [int] that does not convert to a float.  It
      carries the statements about the values the code returns.

    Exceptions are values of [exn]; a computation that can raise returns a
    [result]. *)

From Stdlib Require Import ZArith QArith Qminmax List String Ascii Bool Lia Lqa.
From Stdlib Require Import Floats.
Import ListNotations.

Local Open Scope string_scope.
Local Open Scope Z_scope.
Local Open Scope Q_scope.

#[local] Set Warnings "-inexact-float".

(** ** Python primitives *)

(** The exceptions the program can raise.  [NonFinite] is not an exception:
    it marks a float that would be [inf] or [nan], which has no rational
    counterpart (see [limit_sub]). *)
Inductive exn : Type :=
| ValueError (msg : string)
| KeyError (key : string)
| ZeroDivisionError
| OverflowError
| TypeError
| NonFinite.

Inductive result (A : Type) : Type :=
| Ok (a : A)
| Raise (e : exn).

Arguments Ok {A} a.
Arguments Raise {A} e.

Definition bind {A B : Type} (c : result A) (k : A -> result B) : result B :=
  match c with
  | Ok a => k a
  | Raise e => Raise e
  end.

Notation "x <- c ;; k" := (bind c (fun x => k))
  (at level 61, c at next level, right associativity).

(** [x < y] on floats, as a boolean. *)
Definition Qlt_bool (x y : Q) : bool := negb (Qle_bool y x).

(** The builtin [max(a, b)] keeps [a] unless [b > a]; [min(a, b)] keeps [a]
    unless [b < a]. *)
Definition py_max (a b : Q) : Q := if Qlt_bool a b then b else a.
Definition py_min (a b : Q) : Q := if Qlt_bool b a then b else a.

(** Float division [x / y]. *)
Definition py_div (x y : Q) : result Q :=
  if Qeq_bool y 0 then Raise ZeroDivisionError else Ok (x / y).

(** The builtin [sum], which starts from 0 and adds from the left. *)
Definition py_sum (values : list Q) : Q := fold_left Qplus values 0.

(** A [dict] with [str] keys: an association list in insertion order.
    Assigning to a key that is present replaces its value in place. *)
Definition dict (V : Type) : Type := list (string * V).

Fixpoint dict_set {V : Type} (d : dict V) (key : string) (v : V) : dict V :=
  match d with
  | [] => [(key, v)]
  | (k, w) :: rest =>
      if String.eqb k key then (k, v) :: rest else (k, w) :: dict_set rest key v
  end.

Fixpoint dict_find {V : Type} (d : dict V) (key : string) : option V :=
  match d with
  | [] => None
  | (k, w) :: rest => if String.eqb k key then Some w else dict_find rest key
  end.

(** [d[key]] *)
Definition dict_get {V : Type} (d : dict V) (key : string) : result V :=
  match dict_find d key with
  | Some v => Ok v
  | None => Raise (KeyError key)
  end.

Definition dict_values {V : Type} (d : dict V) : list V := map snd d.
Definition dict_keys {V : Type} (d : dict V) : list string := map fst d.

(** [str.strip()] and [str.lower()], on code points below 256. *)
Definition is_space (c : ascii) : bool :=
  let n := nat_of_ascii c in
  ((9 <=? n) && (n <=? 13) || (28 <=? n) && (n <=? 32)
   || (n =? 133) || (n =? 160))%nat.

Fixpoint lstrip (s : string) : string :=
  match s with
  | EmptyString => EmptyString
  | String c rest => if is_space c then lstrip rest else s
  end.

Fixpoint rstrip (s : string) : string :=
  match s with
  | EmptyString => EmptyString
  | String c rest =>
      match rstrip rest with
      | EmptyString => if is_space c then EmptyString else String c EmptyString
      | kept => String c kept
      end
  end.

Definition strip (s : string) : string := rstrip (lstrip s).

Definition lower_char (c : ascii) : ascii :=
  let n := nat_of_ascii c in
  if ((65 <=? n) && (n <=? 90)
      || (192 <=? n) && (n <=? 222) && negb (n =? 215))%nat
  then ascii_of_nat (n + 32) else c.

Fixpoint lower (s : string) : string :=
  match s with
  | EmptyString => EmptyString
  | String c rest => String (lower_char c) (lower rest)
  end.

(** [sep.join(parts)] *)
Fixpoint join (sep : string) (parts : list string) : string :=
  match parts with
  | [] => ""
  | [p] => p
  | p :: rest => p ++ sep ++ join sep rest
  end.

(** ** Data model *)

Module PaystubInput.
Record t : Type := Build {
  spouse : string;
  pay_frequency : string;
  ytd_pay_periods : Z;
  ytd_gross : Q;
  ytd_pretax_deductions : Q;
  ytd_posttax_deductions : Q;
  ytd_federal_withheld : Q;
}.
End PaystubInput.

Module TaxResult.
Record t : Type := Build {
  spouse : string;
  annualized_taxable_income : Q;
  annualized_gross : Q;
  annualized_pretax : Q;
  total_tax_share : Q;
  target_withholding_per_period : Q;
  target_withholding_rate : Q;
  remaining_periods : Z;
}.
End TaxResult.

Definition FREQUENCY_PERIODS : dict Z :=
  [("weekly", 52%Z); ("biweekly", 26%Z); ("semi-monthly", 24%Z); ("monthly", 12%Z)].

(** An upper limit of a bracket: a finite amount or [float("inf")]. *)
Inductive limit : Type :=
| Finite (q : Q)
| Infinity.

Module FederalTaxProfile.
Record t : Type := Build {
  year : Z;
  standard_deduction_mfj : Q;
  brackets_mfj : list (limit * Q);
}.
End FederalTaxProfile.

Definition profile_2024 : FederalTaxProfile.t :=
  {| FederalTaxProfile.year := 2024;
     FederalTaxProfile.standard_deduction_mfj := 29200.0;
     FederalTaxProfile.brackets_mfj :=
       [ (Finite 22000.0, 0.10);
         (Finite 89450.0, 0.12);
         (Finite 190750.0, 0.22);
         (Finite 364200.0, 0.24);
         (Finite 462500.0, 0.32);
         (Finite 693750.0, 0.35);
         (Infinity, 0.37) ] |}.

Definition TAX_PROFILES : list (Z * FederalTaxProfile.t) :=
  [ (2024%Z, profile_2024) ].

(** [TAX_PROFILES[year]], when [year] is a key. *)
Definition tax_profile (year : Z) : option FederalTaxProfile.t :=
  option_map snd (find (fun entry => (fst entry =? year)%Z) TAX_PROFILES).

Definition TEMPLATE_HEADERS : list string :=
  [ "spouse"; "pay_frequency"; "ytd_pay_periods"; "ytd_gross";
    "ytd_pretax_deductions"; "ytd_posttax_deductions"; "ytd_federal_withheld" ].

(** ** load_inputs *)

(** One data row of [csv.DictReader], read at the seven template columns.
    Every cell is a string; a short row, whose missing cells the reader
    fills with [None], is outside the model. *)
Module CsvRow.
Record t : Type := Build {
  spouse : string;
  pay_frequency : string;
  ytd_pay_periods : string;
  ytd_gross : string;
  ytd_pretax_deductions : string;
  ytd_posttax_deductions : string;
  ytd_federal_withheld : string;
}.
End CsvRow.

Definition is_empty (s : string) : bool :=
  match s with
  | EmptyString => true
  | String _ _ => false
  end.

Section LoadInputs.

(** The builtins [int(s)] and [float(s)]: each returns the number or raises
    its own [ValueError]. *)
Variable int_of_str : string -> result Z.
Variable float_of_str : string -> result Q.

(** The body of the loop for a row whose stripped spouse is not empty. *)
Definition load_row (spouse : string) (row : CsvRow.t) : result PaystubInput.t :=
  let pay_frequency := lower (strip (CsvRow.pay_frequency row)) in
  match dict_find FREQUENCY_PERIODS pay_frequency with
  | None =>
      Raise (ValueError ("Unsupported pay_frequency '" ++ pay_frequency
                         ++ "' for " ++ spouse ++ "." ++ " Use one of "
                         ++ join ", " (dict_keys FREQUENCY_PERIODS) ++ "."))
  | Some _ =>
      ytd_pay_periods <- int_of_str (CsvRow.ytd_pay_periods row) ;;
      ytd_gross <- float_of_str (CsvRow.ytd_gross row) ;;
      ytd_pretax_deductions <- float_of_str (CsvRow.ytd_pretax_deductions row) ;;
      ytd_posttax_deductions <- float_of_str (CsvRow.ytd_posttax_deductions row) ;;
      ytd_federal_withheld <- float_of_str (CsvRow.ytd_federal_withheld row) ;;
      Ok (PaystubInput.Build spouse pay_frequency ytd_pay_periods ytd_gross
            ytd_pretax_deductions ytd_posttax_deductions ytd_federal_withheld)
  end.

(** [for row in reader: ...], with [inputs] the list built so far. *)
Fixpoint load_rows (rows : list CsvRow.t) (inputs : list PaystubInput.t)
  : result (list PaystubInput.t) :=
  match rows with
  | [] => Ok inputs
  | row :: rest =>
      let spouse := strip (CsvRow.spouse row) in
      if is_empty spouse then load_rows rest inputs
      else
        entry <- load_row spouse row ;;
        load_rows rest (inputs ++ [entry])
  end.

Definition row_count_error : exn :=
  ValueError "Provide exactly two spouse rows in the CSV.".

(** [load_inputs] on a reader that has field names, which is every reader of
    a file with a header row; [load_inputs_of_reader] below covers the reader
    of an empty file as well. *)
Definition load_inputs (fieldnames : list string) (rows : list CsvRow.t)
  : result (list PaystubInput.t) :=
  let missing :=
    filter (fun h => negb (existsb (String.eqb h) fieldnames)) TEMPLATE_HEADERS in
  match missing with
  | _ :: _ => Raise (ValueError ("Missing columns in CSV: " ++ join ", " missing))
  | [] =>
      inputs <- load_rows rows [] ;;
      if negb (Nat.eqb (List.length inputs) 2) then Raise row_count_error
      else Ok inputs
  end.

(** [row] loads as [entry]. *)
Definition loads (row : CsvRow.t) (entry : PaystubInput.t) : Prop :=
  load_row (strip (CsvRow.spouse row)) row = Ok entry.

(** [load_inputs] with the field names as the reader has them:
    [reader.fieldnames] is a list when the file has a header row and [None]
    when it has none, as on an empty file; the test
    [h not in reader.fieldnames] of line 110 then raises [TypeError]. *)
Definition load_inputs_of_reader (fieldnames : option (list string))
  (rows : list CsvRow.t) : result (list PaystubInput.t) :=
  match fieldnames with
  | None => Raise TypeError
  | Some names => load_inputs names rows
  end.

End LoadInputs.

(** ** annualize *)

(** In exact arithmetic.  [Binary64.annualize] is the function on floats,
    where the quotient and the product round and an [int] too large for a
    float raises [OverflowError]. *)
Definition annualize (amount : Q) (ytd_periods periods_per_year : Z) : result Q :=
  if (ytd_periods <=? 0)%Z
  then Raise (ValueError "ytd_pay_periods must be greater than zero.")
  else
    per_period <- py_div amount (inject_Z ytd_periods) ;;
    Ok (per_period * inject_Z periods_per_year).

(** ** compute_taxable_income *)

(** The taxable income the loop body derives for one entry. *)
Definition entry_taxable_income (entry : PaystubInput.t) : result Q :=
  periods_per_year <- dict_get FREQUENCY_PERIODS (PaystubInput.pay_frequency entry) ;;
  annual_gross <- annualize (PaystubInput.ytd_gross entry)
                    (PaystubInput.ytd_pay_periods entry) periods_per_year ;;
  annual_pretax <- annualize (PaystubInput.ytd_pretax_deductions entry)
                     (PaystubInput.ytd_pay_periods entry) periods_per_year ;;
  Ok (py_max 0 (annual_gross - annual_pretax)).

Fixpoint taxable_income_loop (inputs : list PaystubInput.t) (taxable : dict Q)
  : result (dict Q) :=
  match inputs with
  | [] => Ok taxable
  | entry :: rest =>
      taxable_income <- entry_taxable_income entry ;;
      taxable_income_loop rest (dict_set taxable (PaystubInput.spouse entry) taxable_income)
  end.

Definition compute_taxable_income (inputs : list PaystubInput.t) : result (dict Q) :=
  taxable_income_loop inputs [].

(** ** compute_federal_tax *)

(** [upper_limit - lower_limit].  With an infinite [lower_limit] the float
    difference is [-inf] or [nan]: no value of the model. *)
Definition limit_sub (upper_limit lower_limit : limit) : option limit :=
  match upper_limit, lower_limit with
  | Finite u, Finite l => Some (Finite (u - l))
  | Infinity, Finite _ => Some Infinity
  | _, Infinity => None
  end.

(** [min(width, x)] for a width that may be infinite. *)
Definition limit_min (width : limit) (x : Q) : Q :=
  match width with
  | Finite w => py_min w x
  | Infinity => x
  end.

(** The [for] loop over the brackets, from the state
    [(taxable_income, tax, lower_limit)].  In exact arithmetic;
    [Binary64.bracket_walk] rounds every difference, product and sum. *)
Fixpoint bracket_walk (brackets : list (limit * Q))
  (taxable_income tax : Q) (lower_limit : limit) : result Q :=
  match brackets with
  | [] => Ok tax
  | (upper_limit, rate) :: rest =>
      if Qle_bool taxable_income 0 then Ok tax
      else
        match limit_sub upper_limit lower_limit with
        | None => Raise NonFinite
        | Some width =>
            let taxable_at_rate := limit_min width taxable_income in
            bracket_walk rest (taxable_income - taxable_at_rate)
              (tax + taxable_at_rate * rate) upper_limit
        end
  end.

Definition compute_federal_tax (taxable_income : Q) (profile : FederalTaxProfile.t)
  : result Q :=
  let taxable_income :=
    py_max 0 (taxable_income - FederalTaxProfile.standard_deduction_mfj profile) in
  bracket_walk (FederalTaxProfile.brackets_mfj profile) taxable_income 0 (Finite 0).



(** ** compute_results *)

(** The body of the second loop: the result for one entry.  In exact
    arithmetic; [Binary64.entry_result] rounds every quotient, product and
    difference. *)
Definition entry_result (taxable_by_spouse : dict Q) (total_taxable total_tax : Q)
  (entry : PaystubInput.t) : result TaxResult.t :=
  periods_per_year <- dict_get FREQUENCY_PERIODS (PaystubInput.pay_frequency entry) ;;
  annual_gross <- annualize (PaystubInput.ytd_gross entry)
                    (PaystubInput.ytd_pay_periods entry) periods_per_year ;;
  annual_pretax <- annualize (PaystubInput.ytd_pretax_deductions entry)
                     (PaystubInput.ytd_pay_periods entry) periods_per_year ;;
  spouse_taxable <- dict_get taxable_by_spouse (PaystubInput.spouse entry) ;;
  share <- (if Qlt_bool 0 total_taxable then py_div spouse_taxable total_taxable
            else Ok 0) ;;
  let target_tax := total_tax * share in
  let remaining_periods :=
    Z.max 0 (periods_per_year - PaystubInput.ytd_pay_periods entry) in
  let remaining_tax := target_tax - PaystubInput.ytd_federal_withheld entry in
  per_period_target <- (if (0 <? remaining_periods)%Z
                        then py_div remaining_tax (inject_Z remaining_periods)
                        else Ok 0) ;;
  gross_per_period <- (if negb (periods_per_year =? 0)%Z
                       then py_div annual_gross (inject_Z periods_per_year)
                       else Ok 0) ;;
  withholding_rate <- (if negb (Qeq_bool gross_per_period 0)
                       then py_div per_period_target gross_per_period
                       else Ok 0) ;;
  Ok (TaxResult.Build (PaystubInput.spouse entry) spouse_taxable annual_gross
        annual_pretax target_tax per_period_target withholding_rate
        remaining_periods).

Fixpoint results_loop (taxable_by_spouse : dict Q) (total_taxable total_tax : Q)
  (inputs : list PaystubInput.t) (results : list TaxResult.t)
  : result (list TaxResult.t) :=
  match inputs with
  | [] => Ok results
  | entry :: rest =>
      r <- entry_result taxable_by_spouse total_taxable total_tax entry ;;
      results_loop taxable_by_spouse total_taxable total_tax rest (results ++ [r])
  end.

Definition compute_results (inputs : list PaystubInput.t)
  (profile : FederalTaxProfile.t) : result (list TaxResult.t) :=
  taxable_by_spouse <- compute_taxable_income inputs ;;
  let total_taxable := py_sum (dict_values taxable_by_spouse) in
  total_tax <- compute_federal_tax total_taxable profile ;;
  results_loop taxable_by_spouse total_taxable total_tax inputs [].

(** An instrumented walk: the [(taxable_at_rate, rate)] pair of every bracket
    the loop visits before it stops. *)
Fixpoint bracket_slices (brackets : list (limit * Q))
  (taxable_income : Q) (lower_limit : limit) : list (Q * Q) :=
  match brackets with
  | [] => []
  | (upper_limit, rate) :: rest =>
      if Qle_bool taxable_income 0 then []
      else
        match limit_sub upper_limit lower_limit with
        | None => []
        | Some width =>
            let taxable_at_rate := limit_min width taxable_income in
            (taxable_at_rate, rate)
              :: bracket_slices rest (taxable_income - taxable_at_rate) upper_limit
        end
  end.






(** An entry that both loops of [compute_results] can process: its pay
    frequency is a key of [FREQUENCY_PERIODS] and it has paid periods. *)
Definition valid_entry (entry : PaystubInput.t) : bool :=
  match dict_find FREQUENCY_PERIODS (PaystubInput.pay_frequency entry) with
  | Some _ => (0 <? PaystubInput.ytd_pay_periods entry)%Z
  | None => false
  end.

(** The share of the joint tax that [entry_result] assigns. *)
Definition apportioned (total_taxable total_tax spouse_taxable : Q) : Q :=
  total_tax * (if Qlt_bool 0 total_taxable then spouse_taxable / total_taxable else 0).

(** ** Derived notions used in the statements *)

(** The annualized taxable income of a valid entry. *)
Definition taxable_of (entry : PaystubInput.t) (periods_per_year : Z) : Q :=
  py_max 0
    (PaystubInput.ytd_gross entry / inject_Z (PaystubInput.ytd_pay_periods entry)
       * inject_Z periods_per_year
     - PaystubInput.ytd_pretax_deductions entry
         / inject_Z (PaystubInput.ytd_pay_periods entry)
         * inject_Z periods_per_year).

(** What [entry_result] returns for [entry]: the fields the claims speak of. *)
Definition result_for (taxable_by_spouse : dict Q) (total_taxable total_tax : Q)
  (entry : PaystubInput.t) (r : TaxResult.t) : Prop :=
  exists periods_per_year spouse_taxable,
    dict_find FREQUENCY_PERIODS (PaystubInput.pay_frequency entry) = Some periods_per_year
    /\ (0 < PaystubInput.ytd_pay_periods entry)%Z
    /\ dict_find taxable_by_spouse (PaystubInput.spouse entry) = Some spouse_taxable
    /\ TaxResult.spouse r = PaystubInput.spouse entry
    /\ TaxResult.annualized_taxable_income r = spouse_taxable
    /\ TaxResult.total_tax_share r = apportioned total_taxable total_tax spouse_taxable
    /\ TaxResult.remaining_periods r
       = Z.max 0 (periods_per_year - PaystubInput.ytd_pay_periods entry)
    /\ TaxResult.target_withholding_per_period r
       = (if (0 <? TaxResult.remaining_periods r)%Z
          then (TaxResult.total_tax_share r - PaystubInput.ytd_federal_withheld entry)
               / inject_Z (TaxResult.remaining_periods r)
          else 0).

(** A row whose spouse cell is empty or whitespace only. *)
Definition is_blank (row : CsvRow.t) : bool := is_empty (strip (CsvRow.spouse row)).

(** The rows the loop does not skip. *)
Definition non_blank (rows : list CsvRow.t) : list CsvRow.t :=
  filter (fun row => negb (is_blank row)) rows.

(** Every template column is among the field names of the reader. *)
Definition headers_present (fieldnames : list string) : bool :=
  forallb (fun h => existsb (String.eqb h) fieldnames) TEMPLATE_HEADERS.

(** ** Example inputs *)


(** Two spouses whose pretax deductions cover their gross pay. *)
Definition no_income_a : PaystubInput.t :=
  PaystubInput.Build "spouse_a" "weekly" 10 5000 5000 0 0.

Definition no_income_b : PaystubInput.t :=
  PaystubInput.Build "spouse_b" "monthly" 3 0 0 0 0.

(** Two spouses with distinct identifiers. *)
Definition spouse_a_entry : PaystubInput.t :=
  PaystubInput.Build "spouse_a" "weekly" 20 40000 2000 0 3000.

Definition spouse_b_entry : PaystubInput.t :=
  PaystubInput.Build "spouse_b" "biweekly" 10 25000 2000 0 2500.

(** Two records that carry the same spouse identifier. *)
Definition first_stub : PaystubInput.t :=
  PaystubInput.Build "spouse_a" "weekly" 20 40000 2000 0 3000.

Definition second_stub : PaystubInput.t :=
  PaystubInput.Build "spouse_a" "biweekly" 10 25000 2000 0 2500.

(** A stand-in for the builtins [int] and [float] on plain strings of decimal
    digits, for the examples. *)
Fixpoint digits_value (s : string) (acc : Z) : option Z :=
  match s with
  | EmptyString => Some acc
  | String c rest =>
      let n := nat_of_ascii c in
      if ((48 <=? n) && (n <=? 57))%nat
      then digits_value rest (10 * acc + Z.of_nat (n - 48))%Z
      else None
  end.

Definition int_of_digits (s : string) : result Z :=
  match s, digits_value s 0 with
  | String _ _, Some z => Ok z
  | _, _ => Raise (ValueError "invalid literal for int() with base 10")
  end.

Definition float_of_digits (s : string) : result Q :=
  match s, digits_value s 0 with
  | String _ _, Some z => Ok (inject_Z z)
  | _, _ => Raise (ValueError "could not convert string to float")
  end.

(** Two data rows that load, with stray case and spaces. *)
Definition row_a : CsvRow.t :=
  CsvRow.Build "spouse_a" "Weekly" "20" "40000" "2000" "0" "3000".

Definition row_b : CsvRow.t :=
  CsvRow.Build " spouse_b " " biweekly" "10" "25000" "2000" "0" "2500".

(** A row with a whitespace-only spouse; its other cells would not load. *)
Definition row_blank : CsvRow.t :=
  CsvRow.Build "   " "daily" "" "n/a" "" "" "".

(** ** Notions for the further properties *)

(** The last entry of [inputs] whose spouse is [key]. *)
Fixpoint last_with_spouse (key : string) (inputs : list PaystubInput.t)
  : option PaystubInput.t :=
  match inputs with
  | [] => None
  | entry :: rest =>
      match last_with_spouse key rest with
      | Some later => Some later
      | None => if String.eqb (PaystubInput.spouse entry) key then Some entry else None
      end
  end.

(** The sum of a list of amounts, from the right. *)
Definition Qsum (values : list Q) : Q := fold_right Qplus 0 values.

(** The exception an entry raises in the loops of [compute_results], if any:
    the [KeyError] of the frequency lookup comes before the [ValueError] of
    [annualize]. *)
Definition entry_error (entry : PaystubInput.t) : option exn :=
  match dict_find FREQUENCY_PERIODS (PaystubInput.pay_frequency entry) with
  | None => Some (KeyError (PaystubInput.pay_frequency entry))
  | Some _ =>
      if (PaystubInput.ytd_pay_periods entry <=? 0)%Z
      then Some (ValueError "ytd_pay_periods must be greater than zero.")
      else None
  end.

(** [entry] with another amount of post-tax deductions. *)
Definition with_posttax (amount : Q) (entry : PaystubInput.t) : PaystubInput.t :=
  PaystubInput.Build (PaystubInput.spouse entry) (PaystubInput.pay_frequency entry)
    (PaystubInput.ytd_pay_periods entry) (PaystubInput.ytd_gross entry)
    (PaystubInput.ytd_pretax_deductions entry) amount
    (PaystubInput.ytd_federal_withheld entry).

(** The two totals [print_summary] computes before it prints: the sum of the
    results' taxable incomes and the federal tax of that sum. *)
Definition summary_totals (results : list TaxResult.t) (profile : FederalTaxProfile.t)
  : result (Q * Q) :=
  let total_taxable := py_sum (map TaxResult.annualized_taxable_income results) in
  total_tax <- compute_federal_tax total_taxable profile ;;
  Ok (total_taxable, total_tax).

(** The template columns that are not among the field names, in template
    order: the list [missing] of [load_inputs]. *)
Definition missing_columns (fieldnames : list string) : list string :=
  filter (fun h => negb (existsb (String.eqb h) fieldnames)) TEMPLATE_HEADERS.

(** The message of the [ValueError] for an unsupported pay frequency. *)
Definition unsupported_frequency (pay_frequency spouse : string) : exn :=
  ValueError ("Unsupported pay_frequency '" ++ pay_frequency ++ "' for " ++ spouse
              ++ ". Use one of weekly, biweekly, semi-monthly, monthly.").

(** The two rows [create_template] writes under the header
    [TEMPLATE_HEADERS]. *)
Definition template_rows : list CsvRow.t :=
  [ CsvRow.Build "spouse_a" "weekly" "0" "0" "0" "0" "0";
    CsvRow.Build "spouse_b" "biweekly" "0" "0" "0" "0" "0" ].

(** What [load_inputs] guarantees of an entry it returns: a spouse that is
    not empty and a pay frequency that is a key of [FREQUENCY_PERIODS]. *)
Definition loaded_entry (entry : PaystubInput.t) : Prop :=
  is_empty (PaystubInput.spouse entry) = false
  /\ dict_find FREQUENCY_PERIODS (PaystubInput.pay_frequency entry) <> None.

(** The entries the two template rows load as. *)
Definition template_inputs : list PaystubInput.t :=
  [ PaystubInput.Build "spouse_a" "weekly" 0 0 0 0 0;
    PaystubInput.Build "spouse_b" "biweekly" 0 0 0 0 0 ].

(** ** The program on binary64 floats *)

(** The definitions above compute with exact rationals.  The module below
    transcribes the same functions with the arithmetic Python performs: a
    [float] is a binary64 number ([PrimFloat.float], with its infinities, its
    signed zeros and its [nan]), every operation rounds to nearest, ties to
    even, and an [int] operand of a float operation is converted to a float
    first, which raises [OverflowError] when it is too large.  The statements
    about the values the code returns are made on this module. *)
Module Binary64.

Local Open Scope float_scope.

(** [float(z)]: the nearest binary64 number, ties to even. *)
Definition to_float (z : Z) : float :=
  SF2Prim (binary_normalize prec emax z 0 false).

(** The least [int] that rounds beyond the largest finite float. *)
Definition int_too_large : Z := (2 ^ 1024 - 2 ^ 970)%Z.

(** The conversion of an [int] operand: "int too large to convert to
    float". *)
Definition float_of_int (z : Z) : result float :=
  if (int_too_large <=? Z.abs z)%Z then Raise OverflowError else Ok (to_float z).

(** The builtins [max(a, b)] and [min(a, b)] on floats: [a] is kept unless
    the comparison holds, so also when one of them is [nan]. *)
Definition py_max (a b : float) : float := if a <? b then b else a.
Definition py_min (a b : float) : float := if b <? a then b else a.

(** [x / y] on floats. *)
Definition py_div (x y : float) : result float :=
  if y =? 0 then Raise ZeroDivisionError else Ok (x / y).

(** [x / z] and [x * z] for an [int] [z].  The [int] is converted first; an
    [int] converts to zero only when it is 0. *)
Definition py_div_int (x : float) (z : Z) : result float :=
  y <- float_of_int z ;;
  if (z =? 0)%Z then Raise ZeroDivisionError else Ok (x / y).

Definition py_mul_int (x : float) (z : Z) : result float :=
  y <- float_of_int z ;;
  Ok (x * y).

(** [bool(x)] for a float: [x != 0.0]. *)
Definition truthy (x : float) : bool := negb (x =? 0).

(** The builtin [sum] on floats, from the left, starting from the [int] 0.
    (From Python 3.12 on, [sum] compensates the rounding errors of the
    additions; with at most two values, as in every statement below about
    the value of a sum, the result is the same.) *)
Definition py_sum (values : list float) : float := fold_left add values 0.

Module PaystubInput.
Record t : Type := Build {
  spouse : string;
  pay_frequency : string;
  ytd_pay_periods : Z;
  ytd_gross : float;
  ytd_pretax_deductions : float;
  ytd_posttax_deductions : float;
  ytd_federal_withheld : float;
}.
End PaystubInput.

Module TaxResult.
Record t : Type := Build {
  spouse : string;
  annualized_taxable_income : float;
  annualized_gross : float;
  annualized_pretax : float;
  total_tax_share : float;
  target_withholding_per_period : float;
  target_withholding_rate : float;
  remaining_periods : Z;
}.
End TaxResult.

Module FederalTaxProfile.
Record t : Type := Build {
  year : Z;
  standard_deduction_mfj : float;
  brackets_mfj : list (float * float);
}.
End FederalTaxProfile.

Definition profile_2024 : FederalTaxProfile.t :=
  {| FederalTaxProfile.year := 2024;
     FederalTaxProfile.standard_deduction_mfj := 29200.0;
     FederalTaxProfile.brackets_mfj :=
       [ (22000.0, 0.10);
         (89450.0, 0.12);
         (190750.0, 0.22);
         (364200.0, 0.24);
         (462500.0, 0.32);
         (693750.0, 0.35);
         (infinity, 0.37) ] |}.

Definition annualize (amount : float) (ytd_periods periods_per_year : Z)
  : result float :=
  if (ytd_periods <=? 0)%Z
  then Raise (ValueError "ytd_pay_periods must be greater than zero.")
  else
    per_period <- py_div_int amount ytd_periods ;;
    py_mul_int per_period periods_per_year.

Definition entry_taxable_income (entry : PaystubInput.t) : result float :=
  periods_per_year <- dict_get FREQUENCY_PERIODS (PaystubInput.pay_frequency entry) ;;
  annual_gross <- annualize (PaystubInput.ytd_gross entry)
                    (PaystubInput.ytd_pay_periods entry) periods_per_year ;;
  annual_pretax <- annualize (PaystubInput.ytd_pretax_deductions entry)
                     (PaystubInput.ytd_pay_periods entry) periods_per_year ;;
  Ok (py_max 0 (annual_gross - annual_pretax)).

Fixpoint taxable_income_loop (inputs : list PaystubInput.t) (taxable : dict float)
  : result (dict float) :=
  match inputs with
  | [] => Ok taxable
  | entry :: rest =>
      taxable_income <- entry_taxable_income entry ;;
      taxable_income_loop rest (dict_set taxable (PaystubInput.spouse entry) taxable_income)
  end.

Definition compute_taxable_income (inputs : list PaystubInput.t)
  : result (dict float) :=
  taxable_income_loop inputs [].

(** The [for] loop over the brackets, from the state
    [(taxable_income, tax, lower_limit)].  No float operation of the loop
    raises. *)
Fixpoint bracket_walk (brackets : list (float * float))
  (taxable_income tax lower_limit : float) : float :=
  match brackets with
  | [] => tax
  | (upper_limit, rate) :: rest =>
      if taxable_income <=? 0 then tax
      else
        let taxable_at_rate := py_min (upper_limit - lower_limit) taxable_income in
        bracket_walk rest (taxable_income - taxable_at_rate)
          (tax + taxable_at_rate * rate) upper_limit
  end.

Definition compute_federal_tax (taxable_income : float)
  (profile : FederalTaxProfile.t) : float :=
  let taxable_income :=
    py_max 0 (taxable_income - FederalTaxProfile.standard_deduction_mfj profile) in
  bracket_walk (FederalTaxProfile.brackets_mfj profile) taxable_income 0 0.

(** The body of the second loop of [compute_results]. *)
Definition entry_result (taxable_by_spouse : dict float)
  (total_taxable total_tax : float) (entry : PaystubInput.t) : result TaxResult.t :=
  periods_per_year <- dict_get FREQUENCY_PERIODS (PaystubInput.pay_frequency entry) ;;
  annual_gross <- annualize (PaystubInput.ytd_gross entry)
                    (PaystubInput.ytd_pay_periods entry) periods_per_year ;;
  annual_pretax <- annualize (PaystubInput.ytd_pretax_deductions entry)
                     (PaystubInput.ytd_pay_periods entry) periods_per_year ;;
  spouse_taxable <- dict_get taxable_by_spouse (PaystubInput.spouse entry) ;;
  share <- (if 0 <? total_taxable then py_div spouse_taxable total_taxable
            else Ok 0) ;;
  let target_tax := total_tax * share in
  let remaining_periods :=
    Z.max 0 (periods_per_year - PaystubInput.ytd_pay_periods entry) in
  let remaining_tax := target_tax - PaystubInput.ytd_federal_withheld entry in
  per_period_target <- (if (0 <? remaining_periods)%Z
                        then py_div_int remaining_tax remaining_periods
                        else Ok 0) ;;
  gross_per_period <- (if negb (periods_per_year =? 0)%Z
                       then py_div_int annual_gross periods_per_year
                       else Ok 0) ;;
  withholding_rate <- (if truthy gross_per_period
                       then py_div per_period_target gross_per_period
                       else Ok 0) ;;
  Ok (TaxResult.Build (PaystubInput.spouse entry) spouse_taxable annual_gross
        annual_pretax target_tax per_period_target withholding_rate
        remaining_periods).

Fixpoint results_loop (taxable_by_spouse : dict float)
  (total_taxable total_tax : float) (inputs : list PaystubInput.t)
  (results : list TaxResult.t) : result (list TaxResult.t) :=
  match inputs with
  | [] => Ok results
  | entry :: rest =>
      r <- entry_result taxable_by_spouse total_taxable total_tax entry ;;
      results_loop taxable_by_spouse total_taxable total_tax rest (results ++ [r])
  end.

Definition compute_results (inputs : list PaystubInput.t)
  (profile : FederalTaxProfile.t) : result (list TaxResult.t) :=
  taxable_by_spouse <- compute_taxable_income inputs ;;
  let total_taxable := py_sum (dict_values taxable_by_spouse) in
  let total_tax := compute_federal_tax total_taxable profile in
  results_loop taxable_by_spouse total_taxable total_tax inputs [].

(** An entry that both loops of [compute_results] can process: its pay
    frequency is a key of [FREQUENCY_PERIODS] and its number of paid periods
    is positive and converts to a float. *)
Definition valid_entry (entry : PaystubInput.t) : bool :=
  match dict_find FREQUENCY_PERIODS (PaystubInput.pay_frequency entry) with
  | Some _ =>
      (0 <? PaystubInput.ytd_pay_periods entry)%Z
      && (PaystubInput.ytd_pay_periods entry <? int_too_large)%Z
  | None => false
  end.

(** The exception an entry raises in the loops of [compute_results], if any:
    the [KeyError] of the frequency lookup, then the [ValueError] of
    [annualize], then the [OverflowError] of the conversion. *)
Definition entry_error (entry : PaystubInput.t) : option exn :=
  match dict_find FREQUENCY_PERIODS (PaystubInput.pay_frequency entry) with
  | None => Some (KeyError (PaystubInput.pay_frequency entry))
  | Some _ =>
      if (PaystubInput.ytd_pay_periods entry <=? 0)%Z
      then Some (ValueError "ytd_pay_periods must be greater than zero.")
      else if (int_too_large <=? PaystubInput.ytd_pay_periods entry)%Z
           then Some OverflowError
           else None
  end.

(** The rational number a finite float stands for: its mantissa times two to
    its exponent.  The exponent of a binary64 number is at least -1074, so
    the rational is a multiple of [2 ^ -1074]. *)
Definition exact_value (x : float) : option Q :=
  match Prim2SF x with
  | S754_zero _ => Some (0 # 2 ^ 1074)%Q
  | S754_finite s m e =>
      Some (cond_Zopp s (Zpos m * 2 ^ (e + 1074)) # 2 ^ 1074)%Q
  | _ => None
  end.

(** [x] is finite and stands for [q]. *)
Definition stands_for (x : float) (q : Q) : Prop :=
  match exact_value x with
  | Some v => (v == q)%Q
  | None => False
  end.

(** The float operation [op] on [x] and [y] does not round: its result
    stands for the result of the rational operation [exact_op] on what [x]
    and [y] stand for. *)
Definition exact (op : float -> float -> float) (exact_op : Q -> Q -> Q)
  (x y : float) : Prop :=
  exists a b, stands_for x a /\ stands_for y b /\ stands_for (op x y) (exact_op a b).

(** [float(z)] does not round. *)
Definition exact_int (z : Z) : Prop := stands_for (to_float z) (inject_Z z).

(** Example inputs. *)

(** Two spouses with distinct identifiers: 26 weekly periods with 30,000
    paid, and 13 biweekly periods with 70,000 paid. *)
Definition weekly_entry : PaystubInput.t :=
  PaystubInput.Build "spouse_a" "weekly" 26 30000 0 0 2500.

Definition biweekly_entry : PaystubInput.t :=
  PaystubInput.Build "spouse_b" "biweekly" 13 70000 0 0 9000.

(** A record of a whole year of weekly pay, used twice under one name. *)
Definition whole_year_entry : PaystubInput.t :=
  PaystubInput.Build "spouse_a" "weekly" 52 129200 0 0 0.

(** Two spouses with a whole year of weekly pay of 64,600 each. *)
Definition even_entry_a : PaystubInput.t :=
  PaystubInput.Build "spouse_a" "weekly" 52 64600 0 0 6000.

Definition even_entry_b : PaystubInput.t :=
  PaystubInput.Build "spouse_b" "weekly" 52 64600 0 0 6500.

End Binary64.

(** * Properties *)

(** ** Comparisons, [max] and [min] *)

Lemma Qlt_bool_true (x y : Q) : Qlt_bool x y = true <-> x < y.
Proof.
  unfold Qlt_bool. rewrite negb_true_iff.
  split; intro H.
  - apply Qnot_le_lt. intro Hle. apply Qle_bool_iff in Hle. congruence.
  - destruct (Qle_bool y x) eqn:E; [|reflexivity].
    apply Qle_bool_iff in E. exfalso. apply (Qlt_not_le _ _ H E).
Qed.

Lemma Qlt_bool_false (x y : Q) : Qlt_bool x y = false <-> y <= x.
Proof.
  unfold Qlt_bool. rewrite negb_false_iff. apply Qle_bool_iff.
Qed.

Lemma Qle_bool_false (x y : Q) : Qle_bool x y = false <-> y < x.
Proof.
  rewrite <- (Qlt_bool_true y x). unfold Qlt_bool.
  destruct (Qle_bool x y); simpl; intuition congruence.
Qed.

Lemma py_max_floor (x : Q) : 0 <= py_max 0 x.
Proof.
  unfold py_max. destruct (Qlt_bool 0 x) eqn:E.
  - apply Qlt_bool_true in E. lra.
  - lra.
Qed.

Lemma py_max_below (x : Q) : x <= 0 -> py_max 0 x = 0.
Proof.
  intro H. unfold py_max. apply Qlt_bool_false in H. now rewrite H.
Qed.





Lemma py_div_ok (x y : Q) : ~ y == 0 -> py_div x y = Ok (x / y).
Proof.
  intro H. unfold py_div. destruct (Qeq_bool y 0) eqn:E; [|reflexivity].
  apply Qeq_bool_iff in E. contradiction.
Qed.

Lemma inject_Z_nonzero (z : Z) : z <> 0%Z -> ~ inject_Z z == 0.
Proof.
  intros H E. apply H. unfold Qeq in E. simpl in E. lia.
Qed.

(** ** annualize *)

Lemma annualize_ok (amount : Q) (p n : Z) :
  (0 < p)%Z -> annualize amount p n = Ok (amount / inject_Z p * inject_Z n).
Proof.
  intro H. unfold annualize.
  destruct (p <=? 0)%Z eqn:E; [apply Z.leb_le in E; lia|].
  rewrite py_div_ok by (apply inject_Z_nonzero; lia). reflexivity.
Qed.

Lemma annualize_raises (amount : Q) (p n : Z) :
  (p <= 0)%Z ->
  annualize amount p n = Raise (ValueError "ytd_pay_periods must be greater than zero.").
Proof.
  intro H. unfold annualize. apply Z.leb_le in H. now rewrite H.
Qed.

(** ** compute_federal_tax: the floor at the standard deduction *)

Lemma bracket_walk_stops (brackets : list (limit * Q)) (x tax : Q) (lower : limit) :
  x <= 0 -> bracket_walk brackets x tax lower = Ok tax.
Proof.
  intro H. destruct brackets as [|[upper rate] rest]; simpl; [reflexivity|].
  apply Qle_bool_iff in H. now rewrite H.
Qed.

(** C5, as stated, fails in its first half: the tax of income 0 is 0 only
    when the standard deduction is not negative.  With the 2024 brackets and
    a standard deduction of -1,000, income 0 leaves 1,000 to tax and the tax
    is 100. *)
Lemma negative_deduction_taxes_zero_income :
  exists tax,
    compute_federal_tax 0
      (FederalTaxProfile.Build 2024 (-1000) (FederalTaxProfile.brackets_mfj profile_2024))
    = Ok tax
    /\ tax == 100 /\ ~ tax == 0.
Proof.
  eexists. split; [reflexivity|]. split.
  - vm_compute. reflexivity.
  - vm_compute. discriminate.
Qed.

(** C5, amended.  For every schedule, every taxable income at or below the
    standard deduction yields the tax 0; in particular the tax of income 0 is
    0 for every schedule whose standard deduction is not negative. *)
Theorem zero_income_floor (profile : FederalTaxProfile.t) :
  (forall taxable_income,
      taxable_income <= FederalTaxProfile.standard_deduction_mfj profile ->
      compute_federal_tax taxable_income profile = Ok 0)
  /\ (0 <= FederalTaxProfile.standard_deduction_mfj profile ->
      compute_federal_tax 0 profile = Ok 0).
Proof.
  assert (H : forall t, t <= FederalTaxProfile.standard_deduction_mfj profile ->
                        compute_federal_tax t profile = Ok 0).
  { intros t Ht. unfold compute_federal_tax.
    rewrite py_max_below by lra. apply bracket_walk_stops. lra. }
  split; [exact H|]. intro Hsd. apply H. exact Hsd.
Qed.

Lemma zero_income_floor_witness :
  compute_federal_tax 29200 profile_2024 = Ok 0
  /\ compute_federal_tax 0 profile_2024 = Ok 0.
Proof.
  split.
  - apply (proj1 (zero_income_floor profile_2024)). simpl. lra.
  - apply (proj2 (zero_income_floor profile_2024)). simpl. lra.
Defined.

(** ** compute_federal_tax: the 2024 scenario *)

(** C1, as stated, fails: on a joint taxable income of 100,000 the function
    first subtracts the standard deduction of 29,200 and taxes 70,800, which
    gives 8,056 and not 12,615. *)
Lemma federal_tax_100000_is_8056 :
  exists tax, compute_federal_tax 100000 profile_2024 = Ok tax
              /\ tax == 8056 /\ ~ tax == 12615.
Proof.
  eexists. split; [reflexivity|]. split.
  - vm_compute. reflexivity.
  - vm_compute. discriminate.
Qed.

(** C1, amended.  With the 2024 schedule, the joint taxable income whose
    excess over the standard deduction of 29,200 is 100,000, that is 129,200,
    has the tax 12,615, by the walk 22,000 at 10% = 2,200, then 67,450 at
    12% = 8,094, then 10,550 at 22% = 2,321. *)
Theorem federal_tax_2024_scenario :
  tax_profile 2024 = Some profile_2024
  /\ FederalTaxProfile.standard_deduction_mfj profile_2024 == 29200
  /\ (exists tax, compute_federal_tax 129200 profile_2024 = Ok tax /\ tax == 12615)
  /\ (exists a1 a2 a3,
         bracket_slices (FederalTaxProfile.brackets_mfj profile_2024)
           (py_max 0 (129200 - FederalTaxProfile.standard_deduction_mfj profile_2024))
           (Finite 0)
         = [ (a1, 0.10); (a2, 0.12); (a3, 0.22) ]
         /\ a1 == 22000 /\ a1 * 0.10 == 2200
         /\ a2 == 67450 /\ a2 * 0.12 == 8094
         /\ a3 == 10550 /\ a3 * 0.22 == 2321).
Proof.
  split; [reflexivity|]. split; [reflexivity|]. split.
  - eexists. split; [reflexivity|]. vm_compute. reflexivity.
  - do 3 eexists. split; [vm_compute; reflexivity|].
    repeat split; vm_compute; reflexivity.
Qed.

(** ** compute_federal_tax returns a number on every input *)

Lemma bracket_walk_total (brackets : list (limit * Q)) :
  forall (x tax : Q) (lower : limit),
    (lower = Infinity -> x <= 0) ->
    exists total, bracket_walk brackets x tax lower = Ok total.
Proof.
  induction brackets as [|[upper rate] rest IH]; intros x tax lower Hinv; simpl.
  - eauto.
  - destruct (Qle_bool x 0) eqn:E; [eauto|].
    apply Qle_bool_false in E.
    destruct lower as [l|]; [|specialize (Hinv eq_refl); lra].
    destruct upper as [u|]; simpl.
    + apply IH. discriminate.
    + apply IH. intros _. lra.
Qed.

Lemma compute_federal_tax_total (taxable_income : Q) (profile : FederalTaxProfile.t) :
  exists tax, compute_federal_tax taxable_income profile = Ok tax.
Proof.
  unfold compute_federal_tax. apply bracket_walk_total. discriminate.
Qed.

(** ** Schedules *)




(** ** compute_federal_tax is monotone on schedules with non-negative rates *)







(** ** The early exit of the walk *)






(** ** Dictionaries *)

Lemma dict_find_set_same {V : Type} (d : dict V) (key : string) (v : V) :
  dict_find (dict_set d key v) key = Some v.
Proof.
  induction d as [|[k w] rest IH]; simpl.
  - now rewrite String.eqb_refl.
  - destruct (String.eqb k key) eqn:E; simpl; rewrite E; [reflexivity|exact IH].
Qed.

Lemma dict_find_set_other {V : Type} (d : dict V) (key key' : string) (v : V) :
  key' <> key -> dict_find (dict_set d key v) key' = dict_find d key'.
Proof.
  intro Hne. induction d as [|[k w] rest IH]; simpl.
  - destruct (String.eqb key key') eqn:E; [|reflexivity].
    apply String.eqb_eq in E. congruence.
  - destruct (String.eqb k key) eqn:E; simpl.
    + apply String.eqb_eq in E. subst k.
      destruct (String.eqb key key') eqn:E'; [|reflexivity].
      apply String.eqb_eq in E'. congruence.
    + destruct (String.eqb k key'); [reflexivity|exact IH].
Qed.

Lemma dict_find_set_keeps {V : Type} (d : dict V) (key key' : string) (v : V) :
  dict_find d key' <> None -> dict_find (dict_set d key v) key' <> None.
Proof.
  intro H. destruct (string_dec key' key) as [->|Hne].
  - rewrite dict_find_set_same. discriminate.
  - rewrite dict_find_set_other by assumption. exact H.
Qed.

(** ** The two loops of compute_results *)

Lemma valid_entry_iff (entry : PaystubInput.t) :
  valid_entry entry = true <->
  exists periods_per_year,
    dict_find FREQUENCY_PERIODS (PaystubInput.pay_frequency entry) = Some periods_per_year
    /\ (0 < PaystubInput.ytd_pay_periods entry)%Z.
Proof.
  unfold valid_entry.
  destruct (dict_find FREQUENCY_PERIODS (PaystubInput.pay_frequency entry)) as [ppy|].
  - rewrite Z.ltb_lt. split; [eauto|]. now intros (_ & _ & H).
  - split; [discriminate|]. now intros (? & ? & _).
Qed.

Lemma periods_per_year_positive (frequency : string) (periods_per_year : Z) :
  dict_find FREQUENCY_PERIODS frequency = Some periods_per_year ->
  (0 < periods_per_year)%Z.
Proof.
  unfold FREQUENCY_PERIODS. cbn [dict_find].
  repeat (destruct (String.eqb _ frequency); [intro H; injection H as <-; lia|]).
  discriminate.
Qed.

Lemma entry_taxable_income_eq (entry : PaystubInput.t) (periods_per_year : Z) :
  dict_find FREQUENCY_PERIODS (PaystubInput.pay_frequency entry) = Some periods_per_year ->
  (0 < PaystubInput.ytd_pay_periods entry)%Z ->
  entry_taxable_income entry = Ok (taxable_of entry periods_per_year).
Proof.
  intros Hf Hp. unfold entry_taxable_income, dict_get. rewrite Hf. simpl.
  rewrite !annualize_ok by assumption. reflexivity.
Qed.

Lemma entry_taxable_income_inv (entry : PaystubInput.t) (t : Q) :
  entry_taxable_income entry = Ok t -> valid_entry entry = true.
Proof.
  unfold entry_taxable_income, dict_get, valid_entry.
  destruct (dict_find FREQUENCY_PERIODS (PaystubInput.pay_frequency entry)) as [ppy|];
    simpl; [|discriminate].
  destruct (0 <? PaystubInput.ytd_pay_periods entry)%Z eqn:E; [reflexivity|].
  apply Z.ltb_ge in E. rewrite annualize_raises by assumption. discriminate.
Qed.

Lemma entry_taxable_income_ok (entry : PaystubInput.t) :
  valid_entry entry = true ->
  exists t, entry_taxable_income entry = Ok t /\ 0 <= t.
Proof.
  intro H. apply valid_entry_iff in H as (ppy & Hf & Hp).
  exists (taxable_of entry ppy). split.
  - apply entry_taxable_income_eq; assumption.
  - apply py_max_floor.
Qed.

Lemma taxable_income_loop_ok (inputs : list PaystubInput.t) :
  forall taxable,
    Forall (fun e => valid_entry e = true) inputs ->
    exists taxable',
      taxable_income_loop inputs taxable = Ok taxable'
      /\ forall key,
           dict_find taxable key <> None \/ In key (map PaystubInput.spouse inputs) ->
           dict_find taxable' key <> None.
Proof.
  induction inputs as [|entry rest IH]; intros taxable Hvalid; simpl.
  - exists taxable. split; [reflexivity|]. intros key [H|[]]. exact H.
  - inversion Hvalid as [|? ? Hentry Hrest]; subst.
    destruct (entry_taxable_income_ok entry Hentry) as (t & Et & _).
    rewrite Et. simpl.
    destruct (IH (dict_set taxable (PaystubInput.spouse entry) t) Hrest)
      as (taxable' & E & Hkeys).
    exists taxable'. split; [exact E|].
    intros key [H|[<-|H]]; apply Hkeys.
    + left. apply dict_find_set_keeps. exact H.
    + left. rewrite dict_find_set_same. discriminate.
    + right. exact H.
Qed.

Lemma taxable_income_loop_inv (inputs : list PaystubInput.t) :
  forall taxable taxable',
    taxable_income_loop inputs taxable = Ok taxable' ->
    Forall (fun e => valid_entry e = true) inputs.
Proof.
  induction inputs as [|entry rest IH]; intros taxable taxable' H; simpl in H.
  - constructor.
  - destruct (entry_taxable_income entry) as [t|err] eqn:Et; simpl in H; [|discriminate].
    constructor; [eapply entry_taxable_income_inv; eassumption|].
    eapply IH. eassumption.
Qed.

(** The four guarded divisions of the loop body never divide by zero. *)
Lemma guarded_share (spouse_taxable total_taxable : Q) :
  (if Qlt_bool 0 total_taxable then py_div spouse_taxable total_taxable else Ok 0)
  = Ok (if Qlt_bool 0 total_taxable then spouse_taxable / total_taxable else 0).
Proof.
  destruct (Qlt_bool 0 total_taxable) eqn:E; [|reflexivity].
  apply Qlt_bool_true in E. apply py_div_ok. lra.
Qed.

Lemma guarded_per_period (remaining_tax : Q) (remaining_periods : Z) :
  (if (0 <? remaining_periods)%Z
   then py_div remaining_tax (inject_Z remaining_periods) else Ok 0)
  = Ok (if (0 <? remaining_periods)%Z
        then remaining_tax / inject_Z remaining_periods else 0).
Proof.
  destruct (0 <? remaining_periods)%Z eqn:E; [|reflexivity].
  apply Z.ltb_lt in E. apply py_div_ok. apply inject_Z_nonzero. lia.
Qed.

Lemma guarded_gross (annual_gross : Q) (periods_per_year : Z) :
  (if negb (periods_per_year =? 0)%Z
   then py_div annual_gross (inject_Z periods_per_year) else Ok 0)
  = Ok (if negb (periods_per_year =? 0)%Z
        then annual_gross / inject_Z periods_per_year else 0).
Proof.
  destruct (periods_per_year =? 0)%Z eqn:E; simpl; [reflexivity|].
  apply Z.eqb_neq in E. apply py_div_ok. apply inject_Z_nonzero. exact E.
Qed.

Lemma guarded_rate (per_period_target gross_per_period : Q) :
  (if negb (Qeq_bool gross_per_period 0)
   then py_div per_period_target gross_per_period else Ok 0)
  = Ok (if negb (Qeq_bool gross_per_period 0)
        then per_period_target / gross_per_period else 0).
Proof.
  unfold py_div. destruct (Qeq_bool gross_per_period 0); reflexivity.
Qed.

Lemma entry_result_ok (taxable_by_spouse : dict Q) (total_taxable total_tax : Q)
  (entry : PaystubInput.t) (periods_per_year : Z) (spouse_taxable : Q) :
  dict_find FREQUENCY_PERIODS (PaystubInput.pay_frequency entry) = Some periods_per_year ->
  (0 < PaystubInput.ytd_pay_periods entry)%Z ->
  dict_find taxable_by_spouse (PaystubInput.spouse entry) = Some spouse_taxable ->
  exists r, entry_result taxable_by_spouse total_taxable total_tax entry = Ok r
            /\ result_for taxable_by_spouse total_taxable total_tax entry r.
Proof.
  intros Hf Hp Hs. unfold entry_result, dict_get. rewrite Hf, Hs. simpl.
  rewrite !annualize_ok by assumption. simpl.
  rewrite guarded_share. simpl.
  rewrite guarded_per_period. simpl.
  rewrite guarded_gross. simpl.
  rewrite guarded_rate. simpl.
  eexists. split; [reflexivity|].
  exists periods_per_year, spouse_taxable. simpl. repeat split; auto.
Qed.

Lemma entry_result_inv (taxable_by_spouse : dict Q) (total_taxable total_tax : Q)
  (entry : PaystubInput.t) (r : TaxResult.t) :
  entry_result taxable_by_spouse total_taxable total_tax entry = Ok r ->
  result_for taxable_by_spouse total_taxable total_tax entry r.
Proof.
  intro H.
  destruct (dict_find FREQUENCY_PERIODS (PaystubInput.pay_frequency entry))
    as [ppy|] eqn:Hf;
    [|unfold entry_result, dict_get in H; rewrite Hf in H; discriminate].
  destruct (Z_lt_le_dec 0 (PaystubInput.ytd_pay_periods entry)) as [Hp|Hp];
    [|unfold entry_result, dict_get in H; rewrite Hf in H; simpl in H;
      rewrite annualize_raises in H by assumption; discriminate].
  destruct (dict_find taxable_by_spouse (PaystubInput.spouse entry)) as [st|] eqn:Hs;
    [|unfold entry_result, dict_get in H; rewrite Hf, Hs in H; simpl in H;
      rewrite !annualize_ok in H by assumption; discriminate].
  destruct (entry_result_ok taxable_by_spouse total_taxable total_tax entry ppy st Hf Hp Hs)
    as (r' & E & Hr).
  rewrite E in H. injection H as <-. exact Hr.
Qed.

(** The only exceptions of the loop body are the [KeyError] of a lookup and
    the [ValueError] of [annualize]. *)
Lemma entry_result_no_zero_division (taxable_by_spouse : dict Q)
  (total_taxable total_tax : Q) (entry : PaystubInput.t) :
  entry_result taxable_by_spouse total_taxable total_tax entry <> Raise ZeroDivisionError.
Proof.
  destruct (dict_find FREQUENCY_PERIODS (PaystubInput.pay_frequency entry))
    as [ppy|] eqn:Hf;
    [|unfold entry_result, dict_get; rewrite Hf; discriminate].
  destruct (Z_lt_le_dec 0 (PaystubInput.ytd_pay_periods entry)) as [Hp|Hp];
    [|unfold entry_result, dict_get; rewrite Hf; simpl;
      rewrite annualize_raises by assumption; discriminate].
  destruct (dict_find taxable_by_spouse (PaystubInput.spouse entry)) as [st|] eqn:Hs;
    [|unfold entry_result, dict_get; rewrite Hf, Hs; simpl;
      rewrite !annualize_ok by assumption; discriminate].
  destruct (entry_result_ok taxable_by_spouse total_taxable total_tax entry ppy st Hf Hp Hs)
    as (r' & E & _).
  rewrite E. discriminate.
Qed.

Lemma entry_taxable_income_no_zero_division (entry : PaystubInput.t) :
  entry_taxable_income entry <> Raise ZeroDivisionError.
Proof.
  destruct (dict_find FREQUENCY_PERIODS (PaystubInput.pay_frequency entry))
    as [ppy|] eqn:Hf;
    [|unfold entry_taxable_income, dict_get; rewrite Hf; discriminate].
  destruct (Z_lt_le_dec 0 (PaystubInput.ytd_pay_periods entry)) as [Hp|Hp].
  - rewrite (entry_taxable_income_eq entry ppy Hf Hp). discriminate.
  - unfold entry_taxable_income, dict_get. rewrite Hf. simpl.
    rewrite annualize_raises by assumption. discriminate.
Qed.

Lemma results_loop_inv (taxable_by_spouse : dict Q) (total_taxable total_tax : Q)
  (inputs : list PaystubInput.t) :
  forall results out,
    results_loop taxable_by_spouse total_taxable total_tax inputs results = Ok out ->
    exists rs,
      out = (results ++ rs)%list
      /\ Forall2 (result_for taxable_by_spouse total_taxable total_tax) inputs rs.
Proof.
  induction inputs as [|entry rest IH]; intros results out H; simpl in H.
  - injection H as <-. exists []. split; [now rewrite app_nil_r|constructor].
  - destruct (entry_result taxable_by_spouse total_taxable total_tax entry)
      as [r|err] eqn:Er; simpl in H; [|discriminate].
    apply IH in H as (rs & -> & Hrs).
    exists (r :: rs). split; [now rewrite <- app_assoc|].
    constructor; [apply entry_result_inv; exact Er|exact Hrs].
Qed.

Lemma results_loop_ok (taxable_by_spouse : dict Q) (total_taxable total_tax : Q)
  (inputs : list PaystubInput.t) :
  forall results,
    Forall (fun e => valid_entry e = true) inputs ->
    (forall key, In key (map PaystubInput.spouse inputs) ->
                 dict_find taxable_by_spouse key <> None) ->
    exists out,
      results_loop taxable_by_spouse total_taxable total_tax inputs results = Ok out.
Proof.
  induction inputs as [|entry rest IH]; intros results Hvalid Hkeys; simpl.
  - eauto.
  - inversion Hvalid as [|? ? Hentry Hrest]; subst.
    apply valid_entry_iff in Hentry as (ppy & Hf & Hp).
    destruct (dict_find taxable_by_spouse (PaystubInput.spouse entry)) as [st|] eqn:Hs;
      [|exfalso; apply (Hkeys (PaystubInput.spouse entry)); [left; reflexivity|exact Hs]].
    destruct (entry_result_ok taxable_by_spouse total_taxable total_tax entry ppy st Hf Hp Hs)
      as (r & E & _).
    rewrite E. simpl. apply IH; [exact Hrest|].
    intros key Hin. apply Hkeys. right. exact Hin.
Qed.

Lemma results_loop_no_zero_division (taxable_by_spouse : dict Q)
  (total_taxable total_tax : Q) (inputs : list PaystubInput.t) :
  forall results,
    results_loop taxable_by_spouse total_taxable total_tax inputs results
    <> Raise ZeroDivisionError.
Proof.
  induction inputs as [|entry rest IH]; intros results; simpl; [discriminate|].
  destruct (entry_result taxable_by_spouse total_taxable total_tax entry)
    as [r|err] eqn:Er; simpl; [apply IH|].
  intro H. injection H as ->.
  exact (entry_result_no_zero_division _ _ _ _ Er).
Qed.

Lemma taxable_income_loop_no_zero_division (inputs : list PaystubInput.t) :
  forall taxable, taxable_income_loop inputs taxable <> Raise ZeroDivisionError.
Proof.
  induction inputs as [|entry rest IH]; intros taxable; simpl; [discriminate|].
  destruct (entry_taxable_income entry) as [t|err] eqn:Et; simpl; [apply IH|].
  intro H. injection H as ->.
  exact (entry_taxable_income_no_zero_division _ Et).
Qed.

(** ** compute_results *)

(** Whenever [compute_results] returns, it has the taxable incomes by spouse,
    the joint tax of their sum, and one result per input, in order. *)
Lemma compute_results_inv (inputs : list PaystubInput.t) (profile : FederalTaxProfile.t)
  (results : list TaxResult.t) :
  compute_results inputs profile = Ok results ->
  exists taxable_by_spouse total_tax,
    compute_taxable_income inputs = Ok taxable_by_spouse
    /\ compute_federal_tax (py_sum (dict_values taxable_by_spouse)) profile = Ok total_tax
    /\ Forall2 (result_for taxable_by_spouse (py_sum (dict_values taxable_by_spouse))
                  total_tax) inputs results.
Proof.
  unfold compute_results. intro H.
  destruct (compute_taxable_income inputs) as [d|err] eqn:Ed; simpl in H; [|discriminate].
  destruct (compute_federal_tax (py_sum (dict_values d)) profile) as [tax|err] eqn:Et;
    simpl in H; [|discriminate].
  apply results_loop_inv in H as (rs & -> & Hrs).
  exists d, tax. auto.
Qed.

(** [compute_results] returns exactly on the lists of valid entries. *)
Lemma compute_results_ok (inputs : list PaystubInput.t) (profile : FederalTaxProfile.t) :
  Forall (fun e => valid_entry e = true) inputs ->
  exists results, compute_results inputs profile = Ok results.
Proof.
  intro Hvalid. unfold compute_results, compute_taxable_income.
  destruct (taxable_income_loop_ok inputs [] Hvalid) as (d & Ed & Hkeys).
  rewrite Ed. simpl.
  destruct (compute_federal_tax_total (py_sum (dict_values d)) profile) as (tax & Et).
  rewrite Et. simpl.
  apply results_loop_ok; [exact Hvalid|].
  intros key Hin. apply Hkeys. right. exact Hin.
Qed.

Lemma compute_results_no_zero_division (inputs : list PaystubInput.t)
  (profile : FederalTaxProfile.t) :
  compute_results inputs profile <> Raise ZeroDivisionError.
Proof.
  unfold compute_results, compute_taxable_income.
  destruct (taxable_income_loop inputs []) as [d|err] eqn:Ed; simpl.
  - destruct (compute_federal_tax_total (py_sum (dict_values d)) profile) as (tax & Et).
    rewrite Et. simpl. apply results_loop_no_zero_division.
  - intro H. injection H as ->.
    exact (taxable_income_loop_no_zero_division _ _ Ed).
Qed.



(** ** Two records *)

Lemma compute_taxable_income_pair (e1 e2 : PaystubInput.t) (t1 t2 : Q) :
  entry_taxable_income e1 = Ok t1 ->
  entry_taxable_income e2 = Ok t2 ->
  compute_taxable_income [e1; e2]
  = Ok (if String.eqb (PaystubInput.spouse e1) (PaystubInput.spouse e2)
        then [(PaystubInput.spouse e1, t2)]
        else [(PaystubInput.spouse e1, t1); (PaystubInput.spouse e2, t2)]).
Proof.
  intros E1 E2. unfold compute_taxable_income. simpl. rewrite E1. simpl. rewrite E2.
  simpl. destruct (String.eqb (PaystubInput.spouse e1) (PaystubInput.spouse e2));
    reflexivity.
Qed.

(** The results of two valid records, with the dictionary and the joint tax
    they are computed from. *)
Lemma compute_results_pair (e1 e2 : PaystubInput.t) (profile : FederalTaxProfile.t)
  (taxable : dict Q) :
  compute_taxable_income [e1; e2] = Ok taxable ->
  exists total_tax r1 r2,
    compute_federal_tax (py_sum (dict_values taxable)) profile = Ok total_tax
    /\ compute_results [e1; e2] profile = Ok [r1; r2]
    /\ result_for taxable (py_sum (dict_values taxable)) total_tax e1 r1
    /\ result_for taxable (py_sum (dict_values taxable)) total_tax e2 r2.
Proof.
  intro Ed.
  assert (Hvalid : Forall (fun e => valid_entry e = true) [e1; e2])
    by (eapply taxable_income_loop_inv; exact Ed).
  destruct (compute_results_ok [e1; e2] profile Hvalid) as (results & E).
  destruct (compute_results_inv _ _ _ E) as (d & tax & Ed' & Etax & Hrs).
  rewrite Ed in Ed'. injection Ed' as <-.
  inversion Hrs as [|? r1 ? rs1 H1 Hrs1]; subst.
  inversion Hrs1 as [|? r2 ? rs2 H2 Hrs2]; subst.
  inversion Hrs2; subst.
  exists tax, r1, r2. auto.
Qed.

Lemma apportioned_zero (total_taxable total_tax spouse_taxable : Q) :
  total_taxable <= 0 -> apportioned total_taxable total_tax spouse_taxable == 0.
Proof.
  intro H. unfold apportioned. apply Qlt_bool_false in H. rewrite H. lra.
Qed.

(** C6.  [compute_results] raises [ZeroDivisionError] on no input at all;
    and when both input records have zero annualized taxable income it
    returns two results, each with a [total_tax_share] of zero. *)
Theorem zero_joint_income (profile : FederalTaxProfile.t) :
  (forall inputs, compute_results inputs profile <> Raise ZeroDivisionError)
  /\ forall (e1 e2 : PaystubInput.t) (t1 t2 : Q),
       entry_taxable_income e1 = Ok t1 -> t1 == 0 ->
       entry_taxable_income e2 = Ok t2 -> t2 == 0 ->
       exists r1 r2,
         compute_results [e1; e2] profile = Ok [r1; r2]
         /\ TaxResult.total_tax_share r1 == 0
         /\ TaxResult.total_tax_share r2 == 0.
Proof.
  split; [intro inputs; apply compute_results_no_zero_division|].
  intros e1 e2 t1 t2 E1 Hz1 E2 Hz2.
  pose proof (compute_taxable_income_pair e1 e2 t1 t2 E1 E2) as Ed.
  destruct (compute_results_pair e1 e2 profile _ Ed) as (tax & r1 & r2 & _ & E & H1 & H2).
  exists r1, r2. split; [exact E|].
  assert (Htotal :
            py_sum (dict_values
                      (if String.eqb (PaystubInput.spouse e1) (PaystubInput.spouse e2)
                       then [(PaystubInput.spouse e1, t2)]
                       else [(PaystubInput.spouse e1, t1); (PaystubInput.spouse e2, t2)]))
            <= 0).
  { destruct (String.eqb (PaystubInput.spouse e1) (PaystubInput.spouse e2));
      unfold py_sum; simpl; lra. }
  destruct H1 as (? & st1 & _ & _ & _ & _ & _ & -> & _).
  destruct H2 as (? & st2 & _ & _ & _ & _ & _ & -> & _).
  split; apply apportioned_zero; exact Htotal.
Qed.

Lemma zero_joint_income_witness :
  exists r1 r2,
    compute_results [no_income_a; no_income_b] profile_2024 = Ok [r1; r2]
    /\ TaxResult.total_tax_share r1 == 0
    /\ TaxResult.total_tax_share r2 == 0.
Proof.
  apply (proj2 (zero_joint_income profile_2024) no_income_a no_income_b
           (taxable_of no_income_a 52) (taxable_of no_income_b 12)).
  - reflexivity.
  - vm_compute. reflexivity.
  - reflexivity.
  - vm_compute. reflexivity.
Defined.

(** C9.  When the two input records carry the same spouse identifier,
    [compute_taxable_income] returns a dictionary with that single key, bound
    to the second record's taxable income; the joint taxable income summed in
    [compute_results] is that income alone; and both results report it as
    their taxable income and are apportioned from it: each gets the whole
    joint tax when it is positive. *)
Theorem same_spouse_overwrites (e1 e2 : PaystubInput.t) (profile : FederalTaxProfile.t)
  (t1 t2 : Q) :
  PaystubInput.spouse e1 = PaystubInput.spouse e2 ->
  entry_taxable_income e1 = Ok t1 ->
  entry_taxable_income e2 = Ok t2 ->
  let taxable := [(PaystubInput.spouse e2, t2)] in
  let total_taxable := py_sum (dict_values taxable) in
  compute_taxable_income [e1; e2] = Ok taxable
  /\ total_taxable == t2
  /\ exists total_tax r1 r2,
       compute_federal_tax total_taxable profile = Ok total_tax
       /\ compute_results [e1; e2] profile = Ok [r1; r2]
       /\ TaxResult.annualized_taxable_income r1 = t2
       /\ TaxResult.annualized_taxable_income r2 = t2
       /\ TaxResult.total_tax_share r1 = apportioned total_taxable total_tax t2
       /\ TaxResult.total_tax_share r2 = apportioned total_taxable total_tax t2
       /\ (0 < t2 ->
           TaxResult.total_tax_share r1 == total_tax
           /\ TaxResult.total_tax_share r2 == total_tax).
Proof.
  intros Hsame E1 E2 taxable total_taxable.
  assert (Ed : compute_taxable_income [e1; e2] = Ok taxable).
  { rewrite (compute_taxable_income_pair e1 e2 t1 t2 E1 E2).
    rewrite Hsame, String.eqb_refl. reflexivity. }
  assert (Htotal : total_taxable == t2)
    by (unfold total_taxable, taxable, py_sum; simpl; lra).
  split; [exact Ed|]. split; [exact Htotal|].
  destruct (compute_results_pair e1 e2 profile taxable Ed)
    as (tax & r1 & r2 & Et & E & H1 & H2).
  exists tax, r1, r2. split; [exact Et|]. split; [exact E|].
  destruct H1 as (? & st1 & _ & _ & Hs1 & _ & Ha1 & Hshare1 & _).
  destruct H2 as (? & st2 & _ & _ & Hs2 & _ & Ha2 & Hshare2 & _).
  unfold taxable in Hs1, Hs2. simpl in Hs1, Hs2.
  rewrite Hsame, String.eqb_refl in Hs1. rewrite String.eqb_refl in Hs2.
  injection Hs1 as <-. injection Hs2 as <-.
  fold taxable in Hshare1, Hshare2. fold total_taxable in Hshare1, Hshare2.
  repeat (split; [assumption|]).
  intro Hpos.
  assert (Hgoal : apportioned total_taxable tax t2 == tax).
  { unfold apportioned.
    assert (Hlt : Qlt_bool 0 total_taxable = true) by (apply Qlt_bool_true; lra).
    rewrite Hlt. rewrite Htotal. field. lra. }
  rewrite Hshare1, Hshare2. split; exact Hgoal.
Qed.

Lemma same_spouse_overwrites_witness :
  compute_taxable_income [first_stub; second_stub]
  = Ok [("spouse_a", taxable_of second_stub 26)]
  /\ py_sum [taxable_of second_stub 26] == 59800.
Proof.
  destruct (same_spouse_overwrites first_stub second_stub profile_2024
              (taxable_of first_stub 52) (taxable_of second_stub 26)
              eq_refl eq_refl eq_refl) as (Hd & Htotal & _).
  split; [exact Hd|].
  apply (Qeq_trans _ _ _ Htotal). vm_compute. reflexivity.
Defined.

(** ** load_inputs *)

Section LoadInputsFacts.

Variable int_of_str : string -> result Z.
Variable float_of_str : string -> result Q.

Lemma non_blank_cons (row : CsvRow.t) (rows : list CsvRow.t) :
  non_blank (row :: rows)
  = if is_blank row then non_blank rows else row :: non_blank rows.
Proof.
  unfold non_blank. simpl. destruct (is_blank row); reflexivity.
Qed.

Lemma load_rows_cons (row : CsvRow.t) (rows : list CsvRow.t)
  (inputs : list PaystubInput.t) :
  load_rows int_of_str float_of_str (row :: rows) inputs
  = if is_blank row then load_rows int_of_str float_of_str rows inputs
    else
      entry <- load_row int_of_str float_of_str (strip (CsvRow.spouse row)) row ;;
      load_rows int_of_str float_of_str rows (inputs ++ [entry]).
Proof.
  reflexivity.
Qed.

Lemma load_rows_non_blank (rows : list CsvRow.t) :
  forall inputs,
    load_rows int_of_str float_of_str rows inputs
    = load_rows int_of_str float_of_str (non_blank rows) inputs.
Proof.
  induction rows as [|row rest IH]; intro inputs; [reflexivity|].
  rewrite non_blank_cons, load_rows_cons.
  destruct (is_blank row) eqn:E; [apply IH|].
  rewrite load_rows_cons, E.
  destruct (load_row int_of_str float_of_str _ row); simpl; [apply IH|reflexivity].
Qed.

Lemma load_rows_length (rows : list CsvRow.t) :
  forall inputs out,
    load_rows int_of_str float_of_str rows inputs = Ok out ->
    List.length out = (List.length inputs + List.length (non_blank rows))%nat.
Proof.
  induction rows as [|row rest IH]; intros inputs out H.
  - simpl in H. injection H as <-. simpl. lia.
  - rewrite load_rows_cons in H. rewrite non_blank_cons.
    destruct (is_blank row) eqn:E; [apply IH; exact H|].
    destruct (load_row int_of_str float_of_str _ row) as [entry|]; simpl in H;
      [|discriminate].
    apply IH in H. rewrite H, length_app. simpl. lia.
Qed.

Lemma load_rows_all (rows : list CsvRow.t) :
  forall inputs entries,
    Forall2 (loads int_of_str float_of_str) (non_blank rows) entries ->
    load_rows int_of_str float_of_str rows inputs = Ok (inputs ++ entries)%list.
Proof.
  induction rows as [|row rest IH]; intros inputs entries H.
  - inversion H; subst. simpl. now rewrite app_nil_r.
  - rewrite non_blank_cons in H. rewrite load_rows_cons.
    destruct (is_blank row) eqn:E; [apply IH; exact H|].
    inversion H as [|? entry ? others Hrow Hrest]; subst.
    unfold loads in Hrow. rewrite Hrow. simpl.
    rewrite (IH _ others Hrest), <- app_assoc. reflexivity.
Qed.

Lemma headers_present_no_missing (fieldnames : list string) :
  headers_present fieldnames = true ->
  filter (fun h => negb (existsb (String.eqb h) fieldnames)) TEMPLATE_HEADERS = [].
Proof.
  unfold headers_present. generalize TEMPLATE_HEADERS.
  induction l as [|h rest IH]; simpl; [reflexivity|].
  intro H. apply andb_true_iff in H as [Hh Hrest].
  rewrite Hh. simpl. apply IH. exact Hrest.
Qed.

Lemma load_inputs_counts (fieldnames : list string) (rows : list CsvRow.t)
  (entries : list PaystubInput.t) :
  headers_present fieldnames = true ->
  Forall2 (loads int_of_str float_of_str) (non_blank rows) entries ->
  load_inputs int_of_str float_of_str fieldnames rows
  = if Nat.eqb (List.length (non_blank rows)) 2 then Ok entries
    else Raise row_count_error.
Proof.
  intros Hh Hrows. unfold load_inputs.
  rewrite (headers_present_no_missing _ Hh).
  rewrite (load_rows_all rows [] entries Hrows). simpl.
  rewrite <- (Forall2_length Hrows).
  destruct (Nat.eqb (List.length (non_blank rows)) 2); reflexivity.
Qed.

Lemma load_inputs_ok_count (fieldnames : list string) (rows : list CsvRow.t)
  (inputs : list PaystubInput.t) :
  load_inputs int_of_str float_of_str fieldnames rows = Ok inputs ->
  List.length (non_blank rows) = 2%nat /\ List.length inputs = 2%nat.
Proof.
  unfold load_inputs.
  destruct (filter _ TEMPLATE_HEADERS); [|discriminate].
  destruct (load_rows int_of_str float_of_str rows []) as [out|] eqn:E; simpl;
    [|discriminate].
  apply load_rows_length in E. simpl in E.
  destruct (Nat.eqb (List.length out) 2) eqn:En; simpl; [|discriminate].
  intro H. injection H as <-. apply Nat.eqb_eq in En. lia.
Qed.

Lemma load_inputs_non_blank (fieldnames : list string) (rows : list CsvRow.t) :
  load_inputs int_of_str float_of_str fieldnames rows
  = load_inputs int_of_str float_of_str fieldnames (non_blank rows).
Proof.
  unfold load_inputs. now rewrite load_rows_non_blank.
Qed.

End LoadInputsFacts.

(** C10.  [load_inputs] skips every row whose spouse cell is empty or
    whitespace only, whatever its other cells hold: the outcome is that of
    the non-blank rows alone.  Its row-count check counts the non-blank rows:
    it returns only when exactly two rows are non-blank; two data rows of
    which one is blank fail the check, and three data rows of which one is
    blank pass it. *)
Theorem blank_rows_are_skipped (int_of_str : string -> result Z)
  (float_of_str : string -> result Q) (fieldnames : list string) :
  let load := load_inputs int_of_str float_of_str fieldnames in
  (forall rows, load rows = load (non_blank rows))
  /\ (forall rows inputs, load rows = Ok inputs -> List.length (non_blank rows) = 2%nat)
  /\ (forall rows entries,
         headers_present fieldnames = true ->
         Forall2 (loads int_of_str float_of_str) (non_blank rows) entries ->
         load rows = if Nat.eqb (List.length (non_blank rows)) 2 then Ok entries
                     else Raise row_count_error)
  /\ (forall blank row entry,
         headers_present fieldnames = true ->
         is_blank blank = true -> is_blank row = false ->
         loads int_of_str float_of_str row entry ->
         load [blank; row] = Raise row_count_error
         /\ load [row; blank] = Raise row_count_error)
  /\ (forall blank r1 r2 e1 e2,
         headers_present fieldnames = true ->
         is_blank blank = true -> is_blank r1 = false -> is_blank r2 = false ->
         loads int_of_str float_of_str r1 e1 ->
         loads int_of_str float_of_str r2 e2 ->
         load [blank; r1; r2] = Ok [e1; e2]
         /\ load [r1; blank; r2] = Ok [e1; e2]
         /\ load [r1; r2; blank] = Ok [e1; e2]).
Proof.
  intro load. unfold load.
  split; [intro rows; apply load_inputs_non_blank|].
  split; [intros rows inputs H; apply (load_inputs_ok_count _ _ _ _ _ H)|].
  split; [intros rows entries; apply load_inputs_counts|].
  split.
  - intros blank row entry Hh Hb Hr Hrow.
    split;
      rewrite (load_inputs_counts _ _ fieldnames _ [entry] Hh);
      rewrite ?non_blank_cons, ?Hb, ?Hr; try reflexivity;
      repeat constructor; exact Hrow.
  - intros blank r1 r2 e1 e2 Hh Hb H1 H2 Hr1 Hr2.
    repeat split;
      rewrite (load_inputs_counts _ _ fieldnames _ [e1; e2] Hh);
      rewrite ?non_blank_cons, ?Hb, ?H1, ?H2; try reflexivity;
      repeat constructor; assumption.
Qed.

Lemma blank_rows_are_skipped_witness :
  let load := load_inputs int_of_digits float_of_digits TEMPLATE_HEADERS in
  (load [row_blank; row_a] = Raise row_count_error
   /\ load [row_a; row_blank] = Raise row_count_error)
  /\ exists e1 e2,
       load [row_blank; row_a; row_b] = Ok [e1; e2]
       /\ load [row_a; row_blank; row_b] = Ok [e1; e2]
       /\ load [row_a; row_b; row_blank] = Ok [e1; e2].
Proof.
  pose proof (blank_rows_are_skipped int_of_digits float_of_digits TEMPLATE_HEADERS)
    as (_ & _ & _ & Htwo & Hthree).
  split.
  - eapply (Htwo row_blank row_a); reflexivity.
  - do 2 eexists. eapply (Hthree row_blank row_a row_b); reflexivity.
Defined.

(** * Further properties of the code *)

(** ** annualize *)



(** ** compute_taxable_income *)

Lemma dict_set_values (P : Q -> Prop) (d : dict Q) (key : string) (v : Q) :
  Forall P (dict_values d) -> P v -> Forall P (dict_values (dict_set d key v)).
Proof.
  intros Hd Hv. induction d as [|[k w] rest IH]; simpl.
  - constructor; [exact Hv|constructor].
  - inversion Hd as [|? ? Hw Hrest]; subst.
    destruct (String.eqb k key); simpl; constructor; auto.
Qed.

Lemma dict_set_keys {V : Type} (d : dict V) (key : string) (v : V) (k : string) :
  In k (dict_keys (dict_set d key v)) <-> k = key \/ In k (dict_keys d).
Proof.
  induction d as [|[k' w] rest IH]; simpl.
  - intuition congruence.
  - destruct (String.eqb k' key) eqn:E; simpl.
    + apply String.eqb_eq in E. subst k'. intuition congruence.
    + rewrite IH. intuition congruence.
Qed.

Lemma dict_set_nodup {V : Type} (d : dict V) (key : string) (v : V) :
  NoDup (dict_keys d) -> NoDup (dict_keys (dict_set d key v)).
Proof.
  induction d as [|[k w] rest IH]; simpl; intro H.
  - constructor; [intros []|constructor].
  - inversion H as [|? ? Hk Hrest]; subst.
    destruct (String.eqb k key) eqn:E; simpl.
    + constructor; assumption.
    + constructor; [|apply IH; exact Hrest].
      intro Hin. apply dict_set_keys in Hin as [->|Hin]; [|contradiction].
      rewrite String.eqb_refl in E. discriminate.
Qed.

Lemma fold_left_Qplus (values : list Q) :
  forall acc, fold_left Qplus values acc == acc + Qsum values.
Proof.
  induction values as [|v rest IH]; intro acc; simpl.
  - lra.
  - rewrite IH. lra.
Qed.

Lemma py_sum_Qsum (values : list Q) : py_sum values == Qsum values.
Proof.
  unfold py_sum. rewrite fold_left_Qplus. lra.
Qed.

Lemma Qsum_nonneg (values : list Q) :
  Forall (fun v => 0 <= v) values -> 0 <= Qsum values.
Proof.
  induction 1 as [|v rest Hv Hrest IH]; simpl; lra.
Qed.

Lemma entry_taxable_income_nonneg (entry : PaystubInput.t) (t : Q) :
  entry_taxable_income entry = Ok t -> 0 <= t.
Proof.
  intro H. pose proof (entry_taxable_income_inv _ _ H) as Hvalid.
  destruct (entry_taxable_income_ok _ Hvalid) as (t' & E & Ht').
  rewrite E in H. injection H as <-. exact Ht'.
Qed.

Lemma taxable_income_loop_nonneg (inputs : list PaystubInput.t) :
  forall taxable taxable',
    Forall (fun v => 0 <= v) (dict_values taxable) ->
    taxable_income_loop inputs taxable = Ok taxable' ->
    Forall (fun v => 0 <= v) (dict_values taxable').
Proof.
  induction inputs as [|entry rest IH]; intros taxable taxable' Hd H; simpl in H.
  - injection H as <-. exact Hd.
  - destruct (entry_taxable_income entry) as [t|] eqn:Et; simpl in H; [|discriminate].
    apply (IH _ _ (dict_set_values _ _ _ _ Hd (entry_taxable_income_nonneg _ _ Et)) H).
Qed.

(** X3.  Whenever [compute_taxable_income] returns, no taxable income of its
    dictionary is negative, and neither is their sum, the joint taxable
    income of [compute_results]. *)
Theorem taxable_incomes_nonneg (inputs : list PaystubInput.t) (taxable : dict Q) :
  compute_taxable_income inputs = Ok taxable ->
  Forall (fun v => 0 <= v) (dict_values taxable)
  /\ 0 <= py_sum (dict_values taxable).
Proof.
  intro H.
  assert (Hd : Forall (fun v => 0 <= v) (dict_values taxable))
    by (apply (taxable_income_loop_nonneg inputs [] taxable); [constructor|exact H]).
  split; [exact Hd|]. rewrite py_sum_Qsum. apply Qsum_nonneg. exact Hd.
Qed.

Lemma taxable_incomes_nonneg_witness :
  Forall (fun v => 0 <= v)
    [taxable_of no_income_a 52; taxable_of no_income_b 12]
  /\ 0 <= py_sum [taxable_of no_income_a 52; taxable_of no_income_b 12].
Proof.
  apply (taxable_incomes_nonneg [no_income_a; no_income_b]
           [("spouse_a", taxable_of no_income_a 52);
            ("spouse_b", taxable_of no_income_b 12)]).
  reflexivity.
Defined.

Lemma taxable_income_loop_find (key : string) (inputs : list PaystubInput.t) :
  forall taxable taxable',
    taxable_income_loop inputs taxable = Ok taxable' ->
    match last_with_spouse key inputs with
    | Some entry =>
        exists t, entry_taxable_income entry = Ok t /\ dict_find taxable' key = Some t
    | None => dict_find taxable' key = dict_find taxable key
    end.
Proof.
  induction inputs as [|entry rest IH]; intros taxable taxable' H; simpl in H.
  - injection H as <-. reflexivity.
  - destruct (entry_taxable_income entry) as [t|] eqn:Et; simpl in H; [|discriminate].
    specialize (IH _ _ H). simpl.
    destruct (last_with_spouse key rest) as [later|]; [exact IH|].
    destruct (String.eqb (PaystubInput.spouse entry) key) eqn:E.
    + apply String.eqb_eq in E. subst key. exists t. split; [exact Et|].
      rewrite IH. apply dict_find_set_same.
    + rewrite IH. apply dict_find_set_other.
      intros ->. rewrite String.eqb_refl in E. discriminate.
Qed.

Lemma taxable_income_loop_nodup (inputs : list PaystubInput.t) :
  forall taxable taxable',
    NoDup (dict_keys taxable) ->
    taxable_income_loop inputs taxable = Ok taxable' ->
    NoDup (dict_keys taxable').
Proof.
  induction inputs as [|entry rest IH]; intros taxable taxable' Hd H; simpl in H.
  - injection H as <-. exact Hd.
  - destruct (entry_taxable_income entry) as [t|] eqn:Et; simpl in H; [|discriminate].
    apply (IH _ _ (dict_set_nodup _ _ _ Hd) H).
Qed.

(** X4.  Whenever [compute_taxable_income] returns, its dictionary has no key
    twice; a spouse that some record carries is bound to the taxable income
    of the last record that carries it, and any other key is absent. *)
Theorem last_record_wins (inputs : list PaystubInput.t) (taxable : dict Q) :
  compute_taxable_income inputs = Ok taxable ->
  NoDup (dict_keys taxable)
  /\ forall key,
       match last_with_spouse key inputs with
       | Some entry =>
           exists t, entry_taxable_income entry = Ok t /\ dict_find taxable key = Some t
       | None => dict_find taxable key = None
       end.
Proof.
  intro H. split.
  - apply (taxable_income_loop_nodup inputs [] taxable); [constructor|exact H].
  - intro key. apply (taxable_income_loop_find key inputs [] taxable H).
Qed.

Lemma last_record_wins_witness :
  NoDup (dict_keys [("spouse_a", taxable_of second_stub 26)])
  /\ forall key,
       match last_with_spouse key [first_stub; second_stub] with
       | Some entry =>
           exists t, entry_taxable_income entry = Ok t
                     /\ dict_find [("spouse_a", taxable_of second_stub 26)] key = Some t
       | None => dict_find [("spouse_a", taxable_of second_stub 26)] key = None
       end.
Proof.
  apply (last_record_wins [first_stub; second_stub]). reflexivity.
Defined.

(** ** compute_results: when it returns and what it raises *)

Lemma entry_error_none (entry : PaystubInput.t) :
  entry_error entry = None <-> valid_entry entry = true.
Proof.
  unfold entry_error, valid_entry.
  destruct (dict_find FREQUENCY_PERIODS (PaystubInput.pay_frequency entry)).
  - destruct (PaystubInput.ytd_pay_periods entry <=? 0)%Z eqn:E.
    + apply Z.leb_le in E. split; [discriminate|]. intro H. apply Z.ltb_lt in H. lia.
    + apply Z.leb_gt in E. split; [|reflexivity]. intros _. apply Z.ltb_lt. exact E.
  - split; discriminate.
Qed.

Lemma entry_taxable_income_raises (entry : PaystubInput.t) (err : exn) :
  entry_error entry = Some err -> entry_taxable_income entry = Raise err.
Proof.
  unfold entry_error, entry_taxable_income, dict_get.
  destruct (dict_find FREQUENCY_PERIODS (PaystubInput.pay_frequency entry)); simpl.
  - destruct (PaystubInput.ytd_pay_periods entry <=? 0)%Z eqn:E; [|discriminate].
    intro H. injection H as <-. apply Z.leb_le in E.
    rewrite annualize_raises by exact E. reflexivity.
  - intro H. injection H as <-. reflexivity.
Qed.

Lemma taxable_income_loop_raises (before after : list PaystubInput.t)
  (entry : PaystubInput.t) (err : exn) :
  forall taxable,
    Forall (fun e => valid_entry e = true) before ->
    entry_error entry = Some err ->
    taxable_income_loop (before ++ entry :: after) taxable = Raise err.
Proof.
  induction before as [|first rest IH]; intros taxable Hvalid Herr; simpl.
  - rewrite (entry_taxable_income_raises _ _ Herr). reflexivity.
  - inversion Hvalid as [|? ? Hfirst Hrest]; subst.
    destruct (entry_taxable_income_ok first Hfirst) as (t & Et & _).
    rewrite Et. simpl. apply IH; assumption.
Qed.

(** ** compute_results: the fields of a result *)

Lemma entry_result_value (taxable_by_spouse : dict Q) (total_taxable total_tax : Q)
  (entry : PaystubInput.t) (periods_per_year : Z) (spouse_taxable : Q) :
  dict_find FREQUENCY_PERIODS (PaystubInput.pay_frequency entry) = Some periods_per_year ->
  (0 < PaystubInput.ytd_pay_periods entry)%Z ->
  dict_find taxable_by_spouse (PaystubInput.spouse entry) = Some spouse_taxable ->
  let annual_gross :=
    PaystubInput.ytd_gross entry / inject_Z (PaystubInput.ytd_pay_periods entry)
    * inject_Z periods_per_year in
  let annual_pretax :=
    PaystubInput.ytd_pretax_deductions entry
    / inject_Z (PaystubInput.ytd_pay_periods entry) * inject_Z periods_per_year in
  let target_tax := apportioned total_taxable total_tax spouse_taxable in
  let remaining := Z.max 0 (periods_per_year - PaystubInput.ytd_pay_periods entry) in
  let per_period :=
    if (0 <? remaining)%Z
    then (target_tax - PaystubInput.ytd_federal_withheld entry) / inject_Z remaining
    else 0 in
  let gross_per_period :=
    if negb (periods_per_year =? 0)%Z then annual_gross / inject_Z periods_per_year
    else 0 in
  entry_result taxable_by_spouse total_taxable total_tax entry
  = Ok (TaxResult.Build (PaystubInput.spouse entry) spouse_taxable annual_gross
          annual_pretax target_tax per_period
          (if negb (Qeq_bool gross_per_period 0) then per_period / gross_per_period
           else 0)
          remaining).
Proof.
  intros Hf Hp Hs. unfold entry_result, dict_get. rewrite Hf, Hs. simpl.
  rewrite !annualize_ok by assumption. simpl.
  rewrite guarded_share. simpl.
  rewrite guarded_per_period. simpl.
  rewrite guarded_gross. simpl.
  rewrite guarded_rate. reflexivity.
Qed.

Lemma entry_result_cases (taxable_by_spouse : dict Q) (total_taxable total_tax : Q)
  (entry : PaystubInput.t) (r : TaxResult.t) :
  entry_result taxable_by_spouse total_taxable total_tax entry = Ok r ->
  exists periods_per_year spouse_taxable,
    dict_find FREQUENCY_PERIODS (PaystubInput.pay_frequency entry) = Some periods_per_year
    /\ (0 < PaystubInput.ytd_pay_periods entry)%Z
    /\ dict_find taxable_by_spouse (PaystubInput.spouse entry) = Some spouse_taxable.
Proof.
  intro H. apply entry_result_inv in H as (ppy & st & Hf & Hp & Hs & _).
  exists ppy, st. auto.
Qed.

Lemma results_loop_entries (taxable_by_spouse : dict Q) (total_taxable total_tax : Q)
  (inputs : list PaystubInput.t) :
  forall results out,
    results_loop taxable_by_spouse total_taxable total_tax inputs results = Ok out ->
    exists rs,
      out = (results ++ rs)%list
      /\ Forall2 (fun e r => entry_result taxable_by_spouse total_taxable total_tax e = Ok r)
           inputs rs.
Proof.
  induction inputs as [|entry rest IH]; intros results out H; simpl in H.
  - injection H as <-. exists []. split; [now rewrite app_nil_r|constructor].
  - destruct (entry_result taxable_by_spouse total_taxable total_tax entry)
      as [r|err] eqn:Er; simpl in H; [|discriminate].
    apply IH in H as (rs & -> & Hrs).
    exists (r :: rs). split; [now rewrite <- app_assoc|].
    constructor; assumption.
Qed.

Lemma compute_results_entries (inputs : list PaystubInput.t)
  (profile : FederalTaxProfile.t) (results : list TaxResult.t) :
  compute_results inputs profile = Ok results ->
  exists taxable_by_spouse total_tax,
    compute_taxable_income inputs = Ok taxable_by_spouse
    /\ compute_federal_tax (py_sum (dict_values taxable_by_spouse)) profile = Ok total_tax
    /\ Forall2
         (fun e r =>
            entry_result taxable_by_spouse (py_sum (dict_values taxable_by_spouse))
              total_tax e = Ok r) inputs results.
Proof.
  unfold compute_results. intro H.
  destruct (compute_taxable_income inputs) as [d|err] eqn:Ed; simpl in H; [|discriminate].
  destruct (compute_federal_tax (py_sum (dict_values d)) profile) as [tax|err] eqn:Et;
    simpl in H; [|discriminate].
  apply results_loop_entries in H as (rs & -> & Hrs).
  exists d, tax. auto.
Qed.

Lemma entry_result_detail (taxable_by_spouse : dict Q) (total_taxable total_tax : Q)
  (entry : PaystubInput.t) (r : TaxResult.t) :
  entry_result taxable_by_spouse total_taxable total_tax entry = Ok r ->
  exists periods_per_year spouse_taxable,
    dict_find FREQUENCY_PERIODS (PaystubInput.pay_frequency entry) = Some periods_per_year
    /\ (0 < PaystubInput.ytd_pay_periods entry)%Z
    /\ (0 < periods_per_year)%Z
    /\ TaxResult.spouse r = PaystubInput.spouse entry
    /\ TaxResult.annualized_gross r
       = PaystubInput.ytd_gross entry / inject_Z (PaystubInput.ytd_pay_periods entry)
         * inject_Z periods_per_year
    /\ TaxResult.annualized_pretax r
       = PaystubInput.ytd_pretax_deductions entry
         / inject_Z (PaystubInput.ytd_pay_periods entry) * inject_Z periods_per_year
    /\ TaxResult.total_tax_share r = apportioned total_taxable total_tax spouse_taxable
    /\ TaxResult.remaining_periods r
       = Z.max 0 (periods_per_year - PaystubInput.ytd_pay_periods entry)
    /\ TaxResult.target_withholding_per_period r
       = (if (0 <? TaxResult.remaining_periods r)%Z
          then (TaxResult.total_tax_share r - PaystubInput.ytd_federal_withheld entry)
               / inject_Z (TaxResult.remaining_periods r)
          else 0)
    /\ TaxResult.target_withholding_rate r
       = (if negb (Qeq_bool (TaxResult.annualized_gross r / inject_Z periods_per_year) 0)
          then TaxResult.target_withholding_per_period r
               / (TaxResult.annualized_gross r / inject_Z periods_per_year)
          else 0).
Proof.
  intro H. destruct (entry_result_cases _ _ _ _ _ H) as (ppy & st & Hf & Hp & Hs).
  rewrite (entry_result_value _ total_taxable total_tax _ _ _ Hf Hp Hs) in H.
  injection H as <-. pose proof (periods_per_year_positive _ _ Hf) as Hppy.
  exists ppy, st. simpl.
  assert (E : (ppy =? 0)%Z = false) by (apply Z.eqb_neq; lia).
  rewrite E. simpl. repeat split; auto.
Qed.

(** X6.  Whenever [compute_results] returns, it returns one result per input
    record, in the order of the input: each result carries the spouse of its
    record and the annualized gross pay and pretax deductions of that
    record. *)
Theorem results_follow_inputs (inputs : list PaystubInput.t)
  (profile : FederalTaxProfile.t) (results : list TaxResult.t) :
  compute_results inputs profile = Ok results ->
  Forall2
    (fun entry r =>
       TaxResult.spouse r = PaystubInput.spouse entry
       /\ exists periods_per_year,
            dict_find FREQUENCY_PERIODS (PaystubInput.pay_frequency entry)
            = Some periods_per_year
            /\ annualize (PaystubInput.ytd_gross entry)
                 (PaystubInput.ytd_pay_periods entry) periods_per_year
               = Ok (TaxResult.annualized_gross r)
            /\ annualize (PaystubInput.ytd_pretax_deductions entry)
                 (PaystubInput.ytd_pay_periods entry) periods_per_year
               = Ok (TaxResult.annualized_pretax r))
    inputs results.
Proof.
  intro H. apply compute_results_entries in H as (d & tax & _ & _ & Hrs).
  eapply Forall2_impl; [|exact Hrs].
  intros entry r Hr.
  apply entry_result_detail in Hr
    as (ppy & st & Hf & Hp & _ & Hspouse & Hgross & Hpretax & _).
  split; [exact Hspouse|]. exists ppy. split; [exact Hf|].
  rewrite Hgross, Hpretax. split; apply annualize_ok; exact Hp.
Qed.

Lemma results_follow_inputs_witness :
  exists results,
    compute_results [spouse_a_entry; spouse_b_entry] profile_2024 = Ok results
    /\ Forall2
         (fun entry r =>
            TaxResult.spouse r = PaystubInput.spouse entry
            /\ exists periods_per_year,
                 dict_find FREQUENCY_PERIODS (PaystubInput.pay_frequency entry)
                 = Some periods_per_year
                 /\ annualize (PaystubInput.ytd_gross entry)
                      (PaystubInput.ytd_pay_periods entry) periods_per_year
                    = Ok (TaxResult.annualized_gross r)
                 /\ annualize (PaystubInput.ytd_pretax_deductions entry)
                      (PaystubInput.ytd_pay_periods entry) periods_per_year
                    = Ok (TaxResult.annualized_pretax r))
         [spouse_a_entry; spouse_b_entry] results.
Proof.
  destruct (compute_results_ok [spouse_a_entry; spouse_b_entry] profile_2024)
    as (results & E); [repeat constructor|].
  exists results. split; [exact E|].
  exact (results_follow_inputs _ _ _ E).
Defined.

(** ** compute_results never reads the post-tax deductions *)

Lemma taxable_income_loop_posttax (amounts : PaystubInput.t -> Q)
  (inputs : list PaystubInput.t) :
  forall taxable,
    taxable_income_loop (map (fun e => with_posttax (amounts e) e) inputs) taxable
    = taxable_income_loop inputs taxable.
Proof.
  induction inputs as [|entry rest IH]; intro taxable; simpl; [reflexivity|].
  change (entry_taxable_income (with_posttax (amounts entry) entry))
    with (entry_taxable_income entry).
  destruct (entry_taxable_income entry); simpl; [apply IH|reflexivity].
Qed.

Lemma results_loop_posttax (amounts : PaystubInput.t -> Q)
  (taxable_by_spouse : dict Q) (total_taxable total_tax : Q)
  (inputs : list PaystubInput.t) :
  forall results,
    results_loop taxable_by_spouse total_taxable total_tax
      (map (fun e => with_posttax (amounts e) e) inputs) results
    = results_loop taxable_by_spouse total_taxable total_tax inputs results.
Proof.
  induction inputs as [|entry rest IH]; intro results; simpl; [reflexivity|].
  change (entry_result taxable_by_spouse total_taxable total_tax
            (with_posttax (amounts entry) entry))
    with (entry_result taxable_by_spouse total_taxable total_tax entry).
  destruct (entry_result taxable_by_spouse total_taxable total_tax entry); simpl;
    [apply IH|reflexivity].
Qed.

(** X9.  [compute_results] never reads [ytd_posttax_deductions]: replacing
    the post-tax deductions of the records by any other amounts changes
    neither the results nor the exception raised. *)
Theorem posttax_deductions_unused (amounts : PaystubInput.t -> Q)
  (inputs : list PaystubInput.t) (profile : FederalTaxProfile.t) :
  compute_results (map (fun e => with_posttax (amounts e) e) inputs) profile
  = compute_results inputs profile.
Proof.
  unfold compute_results, compute_taxable_income.
  rewrite taxable_income_loop_posttax.
  destruct (taxable_income_loop inputs []) as [d|]; simpl; [|reflexivity].
  destruct (compute_federal_tax (py_sum (dict_values d)) profile); simpl; [|reflexivity].
  apply results_loop_posttax.
Qed.

(** ** Any number of records with distinct spouses *)

Lemma dict_find_app {V : Type} (d1 d2 : dict V) (key : string) :
  dict_find (d1 ++ d2)%list key
  = match dict_find d1 key with
    | Some v => Some v
    | None => dict_find d2 key
    end.
Proof.
  induction d1 as [|[k w] rest IH]; simpl; [reflexivity|].
  destruct (String.eqb k key); [reflexivity|exact IH].
Qed.

Lemma dict_set_fresh {V : Type} (d : dict V) (key : string) (v : V) :
  dict_find d key = None -> dict_set d key v = (d ++ [(key, v)])%list.
Proof.
  induction d as [|[k w] rest IH]; simpl; intro H; [reflexivity|].
  destruct (String.eqb k key); [discriminate|]. now rewrite IH.
Qed.

(** With distinct spouses no assignment overwrites: the dictionary lists the
    records' spouses and taxable incomes in the order of the input. *)
Lemma taxable_income_loop_distinct (inputs : list PaystubInput.t) :
  forall taxable taxable',
    NoDup (map PaystubInput.spouse inputs) ->
    (forall e, In e inputs -> dict_find taxable (PaystubInput.spouse e) = None) ->
    taxable_income_loop inputs taxable = Ok taxable' ->
    exists incomes,
      Forall2 (fun e t => entry_taxable_income e = Ok t) inputs incomes
      /\ taxable' = (taxable ++ combine (map PaystubInput.spouse inputs) incomes)%list.
Proof.
  induction inputs as [|entry rest IH]; intros taxable taxable' Hnd Hfresh H; simpl in H.
  - injection H as <-. exists []. split; [constructor|]. simpl. now rewrite app_nil_r.
  - destruct (entry_taxable_income entry) as [t|] eqn:Et; simpl in H; [|discriminate].
    inversion Hnd as [|? ? Hnotin Hnd']; subst.
    rewrite dict_set_fresh in H by (apply Hfresh; left; reflexivity).
    assert (Hfresh' : forall e, In e rest ->
              dict_find (taxable ++ [(PaystubInput.spouse entry, t)])%list
                (PaystubInput.spouse e) = None).
    { intros e He. rewrite dict_find_app, (Hfresh e (or_intror He)). simpl.
      destruct (String.eqb (PaystubInput.spouse entry) (PaystubInput.spouse e)) eqn:E;
        [|reflexivity].
      apply String.eqb_eq in E. exfalso. apply Hnotin. rewrite E.
      apply in_map. exact He. }
    destruct (IH _ _ Hnd' Hfresh' H) as (incomes & Hall & ->).
    exists (t :: incomes). split; [constructor; assumption|].
    simpl. now rewrite <- app_assoc.
Qed.

Lemma combine_find (inputs : list PaystubInput.t) :
  forall (incomes : list Q) (before : dict Q),
    NoDup (map PaystubInput.spouse inputs) ->
    List.length inputs = List.length incomes ->
    (forall e, In e inputs -> dict_find before (PaystubInput.spouse e) = None) ->
    Forall2
      (fun e t =>
         dict_find (before ++ combine (map PaystubInput.spouse inputs) incomes)%list
           (PaystubInput.spouse e) = Some t)
      inputs incomes.
Proof.
  induction inputs as [|entry rest IH]; intros incomes before Hnd Hlen Hfresh;
    destruct incomes as [|t incomes]; try discriminate; [constructor|].
  inversion Hnd as [|? ? Hnotin Hnd']; subst. simpl.
  constructor.
  - rewrite dict_find_app, (Hfresh entry (or_introl eq_refl)). simpl.
    now rewrite String.eqb_refl.
  - replace (before ++ (PaystubInput.spouse entry, t)
               :: combine (map PaystubInput.spouse rest) incomes)%list
      with ((before ++ [(PaystubInput.spouse entry, t)])
              ++ combine (map PaystubInput.spouse rest) incomes)%list
      by (now rewrite <- app_assoc).
    apply IH; [exact Hnd'|simpl in Hlen; lia|].
    intros e He. rewrite dict_find_app, (Hfresh e (or_intror He)). simpl.
    destruct (String.eqb (PaystubInput.spouse entry) (PaystubInput.spouse e)) eqn:E;
      [|reflexivity].
    apply String.eqb_eq in E. exfalso. apply Hnotin. rewrite E.
    apply in_map. exact He.
Qed.

Lemma combine_values (keys : list string) :
  forall incomes : list Q,
    List.length keys = List.length incomes ->
    dict_values (combine keys incomes) = incomes.
Proof.
  induction keys as [|k rest IH]; intros [|t incomes] Hlen; try discriminate;
    [reflexivity|].
  simpl. f_equal. apply IH. simpl in Hlen. lia.
Qed.

Lemma results_of_found (taxable_by_spouse : dict Q) (total_taxable total_tax : Q)
  (inputs : list PaystubInput.t) (incomes : list Q) :
  Forall2 (fun e t => dict_find taxable_by_spouse (PaystubInput.spouse e) = Some t)
    inputs incomes ->
  forall results,
    Forall2 (result_for taxable_by_spouse total_taxable total_tax) inputs results ->
    Forall2
      (fun t r =>
         TaxResult.annualized_taxable_income r = t
         /\ TaxResult.total_tax_share r = apportioned total_taxable total_tax t)
      incomes results.
Proof.
  induction 1 as [|e t es ts Hhead Htail IH]; intros results Hrs.
  - inversion Hrs. constructor.
  - inversion Hrs as [|? r ? rs Hr Hrs']; subst.
    constructor; [|apply IH; exact Hrs'].
    destruct Hr as (? & st & _ & _ & Hs & _ & Hati & Hshare & _).
    rewrite Hhead in Hs. injection Hs as <-. auto.
Qed.

(** The results of records with distinct spouses: the dictionary's values are
    the records' own taxable incomes, in order, and each result is
    apportioned from its record's income. *)
Lemma compute_results_distinct (inputs : list PaystubInput.t)
  (profile : FederalTaxProfile.t) (results : list TaxResult.t) :
  NoDup (map PaystubInput.spouse inputs) ->
  compute_results inputs profile = Ok results ->
  exists taxable_by_spouse total_tax incomes,
    compute_taxable_income inputs = Ok taxable_by_spouse
    /\ dict_values taxable_by_spouse = incomes
    /\ compute_federal_tax (py_sum incomes) profile = Ok total_tax
    /\ Forall2
         (fun t r =>
            TaxResult.annualized_taxable_income r = t
            /\ TaxResult.total_tax_share r = apportioned (py_sum incomes) total_tax t)
         incomes results.
Proof.
  intros Hnd H. apply compute_results_inv in H as (d & tax & Ed & Et & Hrs).
  destruct (taxable_income_loop_distinct inputs [] d Hnd ltac:(reflexivity) Ed)
    as (incomes & Hall & Hd).
  simpl in Hd. pose proof (Forall2_length Hall) as Hlen.
  assert (Hvalues : dict_values d = incomes)
    by (rewrite Hd; apply combine_values; now rewrite length_map).
  exists d, tax, incomes. rewrite Hvalues in Et, Hrs.
  split; [exact Ed|]. split; [exact Hvalues|]. split; [exact Et|].
  pose proof (combine_find inputs incomes [] Hnd Hlen ltac:(reflexivity)) as Hfind.
  simpl in Hfind. rewrite <- Hd in Hfind.
  exact (results_of_found _ _ _ _ _ Hfind _ Hrs).
Qed.

Lemma two_distinct_spouses :
  NoDup (map PaystubInput.spouse [spouse_a_entry; spouse_b_entry]).
Proof.
  simpl. constructor; [simpl; intuition discriminate|].
  constructor; [intros []|constructor].
Qed.

(** ** print_summary *)

(** X11.  For records with pairwise distinct spouses, the two totals that
    [print_summary] recomputes from the results are the joint taxable income
    and the joint tax that [compute_results] apportioned. *)
Theorem summary_totals_agree (inputs : list PaystubInput.t)
  (profile : FederalTaxProfile.t) (results : list TaxResult.t) :
  NoDup (map PaystubInput.spouse inputs) ->
  compute_results inputs profile = Ok results ->
  exists taxable_by_spouse total_tax,
    compute_taxable_income inputs = Ok taxable_by_spouse
    /\ compute_federal_tax (py_sum (dict_values taxable_by_spouse)) profile = Ok total_tax
    /\ summary_totals results profile
       = Ok (py_sum (dict_values taxable_by_spouse), total_tax).
Proof.
  intros Hnd H.
  destruct (compute_results_distinct _ _ _ Hnd H) as (d & tax & incomes & Ed & Hv & Et & Hrs).
  exists d, tax. rewrite Hv. split; [exact Ed|]. split; [exact Et|].
  assert (Hmap : map TaxResult.annualized_taxable_income results = incomes).
  { clear H Ed Hv Et. induction Hrs as [|t r ts rs [Hati _] _ IH]; simpl; [reflexivity|].
    now rewrite Hati, IH. }
  unfold summary_totals. rewrite Hmap, Et. reflexivity.
Qed.

Lemma summary_totals_agree_witness :
  exists results taxable_by_spouse total_tax,
    compute_results [spouse_a_entry; spouse_b_entry] profile_2024 = Ok results
    /\ compute_taxable_income [spouse_a_entry; spouse_b_entry] = Ok taxable_by_spouse
    /\ summary_totals results profile_2024
       = Ok (py_sum (dict_values taxable_by_spouse), total_tax).
Proof.
  destruct (compute_results_ok [spouse_a_entry; spouse_b_entry] profile_2024)
    as (results & E); [repeat constructor|].
  destruct (summary_totals_agree _ _ _ two_distinct_spouses E)
    as (d & tax & Ed & _ & Hs).
  exists results, d, tax. auto.
Defined.

(** ** load_inputs: its errors *)

Lemma missing_columns_nonempty (fieldnames : list string) :
  headers_present fieldnames = false -> missing_columns fieldnames <> [].
Proof.
  unfold headers_present, missing_columns. generalize TEMPLATE_HEADERS.
  induction l as [|h rest IH]; simpl; [discriminate|].
  destruct (existsb (String.eqb h) fieldnames); simpl; [exact IH|discriminate].
Qed.

Lemma existsb_eqb_In (h : string) (fieldnames : list string) :
  existsb (String.eqb h) fieldnames = true <-> In h fieldnames.
Proof.
  rewrite existsb_exists. split.
  - intros (x & Hin & E). apply String.eqb_eq in E. now subst.
  - intro H. exists h. split; [exact H|apply String.eqb_refl].
Qed.

(** X16.  When the reader has field names and some template column is not
    among them, [load_inputs] raises the [ValueError] that lists the missing
    columns in template order, whatever the rows are: no row is read.  When
    the reader has no field names at all, as on an empty file, it raises
    [TypeError] instead. *)
Theorem missing_columns_are_reported (int_of_str : string -> result Z)
  (float_of_str : string -> result Q) :
  (forall rows,
     load_inputs_of_reader int_of_str float_of_str None rows = Raise TypeError)
  /\ forall fieldnames,
       headers_present fieldnames = false ->
       missing_columns fieldnames <> []
       /\ (forall h, In h (missing_columns fieldnames)
                     <-> In h TEMPLATE_HEADERS /\ ~ In h fieldnames)
       /\ forall rows,
            load_inputs_of_reader int_of_str float_of_str (Some fieldnames) rows
            = Raise (ValueError ("Missing columns in CSV: "
                                 ++ join ", " (missing_columns fieldnames))).
Proof.
  split; [reflexivity|].
  intros fieldnames H. pose proof (missing_columns_nonempty _ H) as Hne.
  split; [exact Hne|]. split.
  - intro h. unfold missing_columns. rewrite filter_In, negb_true_iff. split.
    + intros [Hin E]. split; [exact Hin|].
      intro Hf. apply existsb_eqb_In in Hf. congruence.
    + intros [Hin Hn]. split; [exact Hin|].
      destruct (existsb (String.eqb h) fieldnames) eqn:E; [|reflexivity].
      apply existsb_eqb_In in E. contradiction.
  - intro rows. unfold load_inputs_of_reader, load_inputs.
    fold (missing_columns fieldnames).
    destruct (missing_columns fieldnames); [contradiction|reflexivity].
Qed.

Lemma missing_columns_are_reported_witness :
  load_inputs_of_reader int_of_digits float_of_digits None [] = Raise TypeError
  /\ load_inputs_of_reader int_of_digits float_of_digits
       (Some ["spouse"; "pay_frequency"; "ytd_gross"; "ytd_federal_withheld"])
       [row_a; row_b]
     = Raise (ValueError ("Missing columns in CSV: "
                          ++ "ytd_pay_periods, ytd_pretax_deductions, ytd_posttax_deductions")).
Proof.
  split.
  - apply (proj1 (missing_columns_are_reported int_of_digits float_of_digits)).
  - apply (proj2 (missing_columns_are_reported int_of_digits float_of_digits)
             ["spouse"; "pay_frequency"; "ytd_gross"; "ytd_federal_withheld"]).
    reflexivity.
Defined.

Lemma load_rows_app (int_of_str : string -> result Z) (float_of_str : string -> result Q)
  (before after : list CsvRow.t) :
  forall inputs,
    load_rows int_of_str float_of_str (before ++ after) inputs
    = (loaded <- load_rows int_of_str float_of_str before inputs ;;
       load_rows int_of_str float_of_str after loaded).
Proof.
  induction before as [|row rest IH]; intro inputs; [reflexivity|].
  rewrite <- app_comm_cons, !load_rows_cons.
  destruct (is_blank row); [apply IH|].
  destruct (load_row int_of_str float_of_str _ row); simpl; [apply IH|reflexivity].
Qed.

(** X17.  A non-blank row whose pay frequency, stripped and lower-cased, is
    not a key of [FREQUENCY_PERIODS] makes [load_inputs] raise the
    [ValueError] that names the frequency and the spouse, provided the
    columns are present and the non-blank rows before it load.  Neither the
    rows after it, nor the number of rows, nor the other cells of the row
    matter. *)
Theorem unsupported_frequency_is_reported (int_of_str : string -> result Z)
  (float_of_str : string -> result Q) (fieldnames : list string)
  (before after : list CsvRow.t) (row : CsvRow.t) (entries : list PaystubInput.t) :
  headers_present fieldnames = true ->
  Forall2 (loads int_of_str float_of_str) (non_blank before) entries ->
  is_blank row = false ->
  dict_find FREQUENCY_PERIODS (lower (strip (CsvRow.pay_frequency row))) = None ->
  load_inputs int_of_str float_of_str fieldnames (before ++ row :: after)
  = Raise (unsupported_frequency (lower (strip (CsvRow.pay_frequency row)))
             (strip (CsvRow.spouse row))).
Proof.
  intros Hh Hbefore Hrow Hfreq. unfold load_inputs.
  rewrite (headers_present_no_missing _ Hh).
  rewrite load_rows_app, (load_rows_all _ _ before [] entries Hbefore). cbn [bind].
  rewrite load_rows_cons, Hrow. unfold load_row. rewrite Hfreq. reflexivity.
Qed.

Lemma unsupported_frequency_is_reported_witness :
  load_inputs int_of_digits float_of_digits TEMPLATE_HEADERS
    [row_a; CsvRow.Build "spouse_b" " Daily" "x" "" "" "" ""; row_b; row_a]
  = Raise (unsupported_frequency "daily" "spouse_b").
Proof.
  eapply (unsupported_frequency_is_reported int_of_digits float_of_digits TEMPLATE_HEADERS
            [row_a] [row_b; row_a] (CsvRow.Build "spouse_b" " Daily" "x" "" "" "" ""));
    try reflexivity.
  repeat constructor.
Defined.

(** ** load_inputs followed by compute_results *)

Lemma load_row_loaded (int_of_str : string -> result Z) (float_of_str : string -> result Q)
  (spouse : string) (row : CsvRow.t) (entry : PaystubInput.t) :
  is_empty spouse = false ->
  load_row int_of_str float_of_str spouse row = Ok entry ->
  loaded_entry entry.
Proof.
  intros Hspouse H. unfold load_row in H.
  destruct (dict_find FREQUENCY_PERIODS (lower (strip (CsvRow.pay_frequency row))))
    as [ppy|] eqn:Hf; [|discriminate].
  destruct (int_of_str (CsvRow.ytd_pay_periods row)); simpl in H; [|discriminate].
  destruct (float_of_str (CsvRow.ytd_gross row)); simpl in H; [|discriminate].
  destruct (float_of_str (CsvRow.ytd_pretax_deductions row)); simpl in H; [|discriminate].
  destruct (float_of_str (CsvRow.ytd_posttax_deductions row)); simpl in H; [|discriminate].
  destruct (float_of_str (CsvRow.ytd_federal_withheld row)); simpl in H; [|discriminate].
  injection H as <-. unfold loaded_entry.
  cbn [PaystubInput.spouse PaystubInput.pay_frequency].
  split; [exact Hspouse|]. rewrite Hf. discriminate.
Qed.

Lemma load_rows_loaded (int_of_str : string -> result Z) (float_of_str : string -> result Q)
  (rows : list CsvRow.t) :
  forall inputs out,
    Forall loaded_entry inputs ->
    load_rows int_of_str float_of_str rows inputs = Ok out ->
    Forall loaded_entry out.
Proof.
  induction rows as [|row rest IH]; intros inputs out Hin H.
  - simpl in H. injection H as <-. exact Hin.
  - rewrite load_rows_cons in H.
    destruct (is_blank row) eqn:E; [apply (IH _ _ Hin H)|].
    destruct (load_row int_of_str float_of_str (strip (CsvRow.spouse row)) row)
      as [entry|] eqn:Er; simpl in H; [|discriminate].
    refine (IH _ _ _ H). apply Forall_app. split; [exact Hin|].
    constructor; [|constructor].
    exact (load_row_loaded _ _ _ _ _ E Er).
Qed.

Lemma first_unpaid_entry (inputs : list PaystubInput.t) :
  Forall loaded_entry inputs ->
  Forall (fun e => valid_entry e = true) inputs
  \/ exists before entry after,
       inputs = (before ++ entry :: after)%list
       /\ Forall (fun e => valid_entry e = true) before
       /\ (PaystubInput.ytd_pay_periods entry <= 0)%Z
       /\ entry_error entry
          = Some (ValueError "ytd_pay_periods must be greater than zero.").
Proof.
  induction 1 as [|entry rest [_ Hfreq] Hrest IH].
  - left. constructor.
  - destruct (entry_error entry) as [err|] eqn:Eerr.
    + right. exists [], entry, rest. split; [reflexivity|]. split; [constructor|].
      unfold entry_error in *.
      destruct (dict_find FREQUENCY_PERIODS (PaystubInput.pay_frequency entry));
        [|contradiction].
      destruct (PaystubInput.ytd_pay_periods entry <=? 0)%Z eqn:E; [|discriminate].
      apply Z.leb_le in E. split; [exact E|reflexivity].
    + apply entry_error_none in Eerr.
      destruct IH as [Hall|(before & e & after & -> & Hbefore & Hp & Herr)].
      * left. constructor; assumption.
      * right. exists (entry :: before), e, after.
        split; [reflexivity|]. split; [constructor; assumption|]. auto.
Qed.

(** X18.  Whatever [load_inputs] returns is a list of two entries, each with
    a spouse that is not empty and a pay frequency of [FREQUENCY_PERIODS], so
    that [compute_results] raises no [KeyError] on it.  When moreover every
    number of paid periods is below the bound of the conversion to a float
    ([Binary64.int_too_large], from which on the division of [annualize]
    raises [OverflowError]), [compute_results] returns two results if every
    entry has a positive number of paid periods, and raises the [ValueError]
    of [annualize] otherwise. *)
Theorem loaded_inputs_compute (int_of_str : string -> result Z)
  (float_of_str : string -> result Q) (fieldnames : list string)
  (rows : list CsvRow.t) (inputs : list PaystubInput.t) (profile : FederalTaxProfile.t) :
  load_inputs int_of_str float_of_str fieldnames rows = Ok inputs ->
  List.length inputs = 2%nat
  /\ Forall loaded_entry inputs
  /\ (forall key, compute_results inputs profile <> Raise (KeyError key))
  /\ (Forall (fun e => (PaystubInput.ytd_pay_periods e < Binary64.int_too_large)%Z) inputs ->
      (Forall (fun e => (0 < PaystubInput.ytd_pay_periods e)%Z) inputs ->
       exists results,
         compute_results inputs profile = Ok results /\ List.length results = 2%nat)
      /\ (~ Forall (fun e => (0 < PaystubInput.ytd_pay_periods e)%Z) inputs ->
          compute_results inputs profile
          = Raise (ValueError "ytd_pay_periods must be greater than zero."))).
Proof.
  intro H. pose proof (load_inputs_ok_count _ _ _ _ _ H) as [_ Hlen].
  assert (Hloaded : Forall loaded_entry inputs).
  { unfold load_inputs in H.
    destruct (filter _ TEMPLATE_HEADERS); [|discriminate].
    destruct (load_rows int_of_str float_of_str rows []) as [out|] eqn:E;
      simpl in H; [|discriminate].
    destruct (negb (Nat.eqb (List.length out) 2)); [discriminate|].
    injection H as <-. apply (load_rows_loaded _ _ _ _ _ (Forall_nil _) E). }
  split; [exact Hlen|]. split; [exact Hloaded|].
  destruct (first_unpaid_entry inputs Hloaded)
    as [Hall|(before & entry & after & -> & Hbefore & Hp & Herr)].
  - destruct (compute_results_ok inputs profile Hall) as (results & E).
    split; [intro key; rewrite E; discriminate|].
    intros _. split.
    + intros _. exists results. split; [exact E|].
      apply compute_results_inv in E as (d & tax & _ & _ & Hrs).
      rewrite <- (Forall2_length Hrs). exact Hlen.
    + intro Hnot. exfalso. apply Hnot.
      eapply Forall_impl; [|exact Hall].
      intros e He. apply valid_entry_iff in He as (_ & _ & Hpos). exact Hpos.
  - assert (E : compute_results (before ++ entry :: after) profile
                = Raise (ValueError "ytd_pay_periods must be greater than zero.")).
    { unfold compute_results, compute_taxable_income.
      rewrite (taxable_income_loop_raises _ _ _ _ [] Hbefore Herr). reflexivity. }
    split; [intro key; rewrite E; discriminate|].
    intros _. split.
    + intro Hpos. exfalso.
      apply Forall_app in Hpos as [_ Hpos]. inversion Hpos; subst. lia.
    + intros _. exact E.
Qed.

Lemma loaded_inputs_compute_witness :
  exists inputs results,
    load_inputs int_of_digits float_of_digits TEMPLATE_HEADERS [row_a; row_blank; row_b]
    = Ok inputs
    /\ List.length inputs = 2%nat
    /\ Forall loaded_entry inputs
    /\ compute_results inputs profile_2024 = Ok results
    /\ List.length results = 2%nat.
Proof.
  destruct (loaded_inputs_compute int_of_digits float_of_digits TEMPLATE_HEADERS
              [row_a; row_blank; row_b] _ profile_2024 eq_refl)
    as (Hlen & Hloaded & _ & Hcompute).
  destruct Hcompute as [Hreturns _].
  - repeat constructor.
  - destruct Hreturns as (results & E & Hresults).
    + repeat constructor.
    + eexists. exists results. split; [reflexivity|].
      split; [exact Hlen|]. split; [exact Hloaded|]. split; [exact E|exact Hresults].
Defined.

(** ** create_template, load_inputs and compute_results *)

(** X19.  The template is accepted by [load_inputs] and rejected by the
    estimate.  With [int] and [float] reading the cell 0 as zero, the header
    and the two rows that [create_template] writes load as two entries,
    spouse_a paid weekly and spouse_b paid biweekly, with zero paid periods
    and zero amounts; on them [compute_results] raises the [ValueError] of
    [annualize], for every profile. *)
Theorem template_loads_but_cannot_be_estimated (int_of_str : string -> result Z)
  (float_of_str : string -> result Q) (profile : FederalTaxProfile.t) :
  int_of_str "0" = Ok 0%Z ->
  float_of_str "0" = Ok 0 ->
  load_inputs int_of_str float_of_str TEMPLATE_HEADERS template_rows = Ok template_inputs
  /\ compute_results template_inputs profile
     = Raise (ValueError "ytd_pay_periods must be greater than zero.").
Proof.
  intros Hint Hfloat. split; [|reflexivity].
  unfold load_inputs, template_rows. simpl. unfold load_row. simpl.
  rewrite Hint, Hfloat. reflexivity.
Qed.

Lemma template_loads_but_cannot_be_estimated_witness :
  load_inputs int_of_digits float_of_digits TEMPLATE_HEADERS template_rows
  = Ok template_inputs
  /\ compute_results template_inputs profile_2024
     = Raise (ValueError "ytd_pay_periods must be greater than zero.").
Proof.
  apply (template_loads_but_cannot_be_estimated int_of_digits float_of_digits
           profile_2024); reflexivity.
Defined.

(** ** print_summary on two records with the same spouse *)

(** X20.  When the two input records carry the same spouse identifier, the
    annualized taxable income that [print_summary] prints is the sum of the
    taxable income of both results: twice the joint taxable income that
    [compute_results] passed to [compute_federal_tax], hence another amount
    whenever that income is positive; and the federal tax it prints is
    [compute_federal_tax] of the doubled income. *)
Theorem summary_counts_same_spouse_twice (e1 e2 : PaystubInput.t)
  (profile : FederalTaxProfile.t) (t1 t2 : Q) :
  PaystubInput.spouse e1 = PaystubInput.spouse e2 ->
  entry_taxable_income e1 = Ok t1 ->
  entry_taxable_income e2 = Ok t2 ->
  exists taxable_by_spouse results summary_taxable summary_tax,
    compute_taxable_income [e1; e2] = Ok taxable_by_spouse
    /\ py_sum (dict_values taxable_by_spouse) == t2
    /\ compute_results [e1; e2] profile = Ok results
    /\ summary_totals results profile = Ok (summary_taxable, summary_tax)
    /\ summary_taxable == 2 * t2
    /\ compute_federal_tax summary_taxable profile = Ok summary_tax
    /\ (0 < t2 -> ~ summary_taxable == py_sum (dict_values taxable_by_spouse)).
Proof.
  intros Hsame E1 E2.
  pose proof (compute_taxable_income_pair e1 e2 t1 t2 E1 E2) as Ed.
  rewrite Hsame, String.eqb_refl in Ed.
  destruct (compute_results_pair e1 e2 profile _ Ed) as (tax & r1 & r2 & _ & E & H1 & H2).
  destruct H1 as (? & st1 & _ & _ & Hs1 & _ & Ha1 & _).
  destruct H2 as (? & st2 & _ & _ & Hs2 & _ & Ha2 & _).
  simpl in Hs1, Hs2. rewrite Hsame, String.eqb_refl in Hs1.
  rewrite String.eqb_refl in Hs2. injection Hs1 as <-. injection Hs2 as <-.
  destruct (compute_federal_tax_total
              (py_sum (map TaxResult.annualized_taxable_income [r1; r2])) profile)
    as (tax' & Et').
  exists [(PaystubInput.spouse e2, t2)], [r1; r2],
    (py_sum (map TaxResult.annualized_taxable_income [r1; r2])), tax'.
  split; [exact Ed|]. split; [unfold py_sum; simpl; lra|]. split; [exact E|].
  split; [unfold summary_totals; rewrite Et'; reflexivity|].
  split; [unfold py_sum; simpl; rewrite Ha1, Ha2; lra|].
  split; [exact Et'|].
  intro Hpos. unfold py_sum. simpl. rewrite Ha1, Ha2. lra.
Qed.

Lemma summary_counts_same_spouse_twice_witness :
  exists taxable_by_spouse results summary_taxable summary_tax,
    compute_taxable_income [first_stub; second_stub] = Ok taxable_by_spouse
    /\ py_sum (dict_values taxable_by_spouse) == taxable_of second_stub 26
    /\ compute_results [first_stub; second_stub] profile_2024 = Ok results
    /\ summary_totals results profile_2024 = Ok (summary_taxable, summary_tax)
    /\ summary_taxable == 2 * taxable_of second_stub 26
    /\ compute_federal_tax summary_taxable profile_2024 = Ok summary_tax
    /\ ~ summary_taxable == py_sum (dict_values taxable_by_spouse).
Proof.
  destruct (summary_counts_same_spouse_twice first_stub second_stub profile_2024
              (taxable_of first_stub 52) (taxable_of second_stub 26)
              eq_refl eq_refl eq_refl)
    as (d & results & st & stax & Ed & Hsum & E & Es & Hdouble & Etax & Hdiffer).
  exists d, results, st, stax. repeat (split; [assumption|]).
  apply Hdiffer. vm_compute. reflexivity.
Defined.

(** * The program on binary64 floats *)

Section Binary64Facts.

Import Binary64.
Local Open Scope float_scope.

(** ** Conversions and divisions *)

(** A float above zero is not equal to zero: the guard [total_taxable > 0]
    protects the division by [total_taxable]. *)
Lemma ltb_not_zero (x : float) : (0 <? x) = true -> (x =? 0) = false.
Proof.
  rewrite ltb_spec, eqb_spec.
  replace (Prim2SF 0) with (S754_zero false) by reflexivity.
  destruct (Prim2SF x) as [s|s| |s m e]; try destruct s; cbn; congruence.
Qed.

(** The bound of the conversion, at its two sides: the largest [int] that
    converts gives the largest finite float, the next one would give
    [infinity]. *)
Lemma int_too_large_is_tight :
  to_float (int_too_large - 1) = 0x1.fffffffffffffp+1023
  /\ to_float int_too_large = infinity.
Proof.
  split; vm_compute; reflexivity.
Qed.

Lemma float_of_int_ok (z : Z) :
  (Z.abs z < int_too_large)%Z -> float_of_int z = Ok (to_float z).
Proof.
  intro H. unfold float_of_int.
  destruct (int_too_large <=? Z.abs z)%Z eqn:E; [apply Z.leb_le in E; lia|reflexivity].
Qed.

Lemma float_of_int_raises (z : Z) :
  (int_too_large <= Z.abs z)%Z -> float_of_int z = Raise OverflowError.
Proof.
  intro H. unfold float_of_int. apply Z.leb_le in H. now rewrite H.
Qed.

Lemma periods_convert : (52 < int_too_large)%Z.
Proof.
  apply Z.ltb_lt. vm_compute. reflexivity.
Qed.

Lemma py_div_int_ok (x : float) (z : Z) :
  z <> 0%Z -> (Z.abs z < int_too_large)%Z -> py_div_int x z = Ok (x / to_float z).
Proof.
  intros Hz H. unfold py_div_int. rewrite float_of_int_ok by exact H. simpl.
  apply Z.eqb_neq in Hz. now rewrite Hz.
Qed.

Lemma py_mul_int_ok (x : float) (z : Z) :
  (Z.abs z < int_too_large)%Z -> py_mul_int x z = Ok (x * to_float z).
Proof.
  intro H. unfold py_mul_int. now rewrite float_of_int_ok by exact H.
Qed.

(** ** Floats and the rationals they stand for *)

Lemma digits2_pos_bounds (m : positive) :
  (2 ^ (Zpos (digits2_pos m) - 1) <= Zpos m < 2 ^ Zpos (digits2_pos m))%Z.
Proof.
  induction m as [m IH|m IH|].
  - cbn [digits2_pos]. rewrite Pos2Z.inj_succ.
    replace (Z.succ (Zpos (digits2_pos m)) - 1)%Z with (Z.succ (Zpos (digits2_pos m) - 1))%Z
      by lia.
    rewrite !Z.pow_succ_r by lia. lia.
  - cbn [digits2_pos]. rewrite Pos2Z.inj_succ.
    replace (Z.succ (Zpos (digits2_pos m)) - 1)%Z with (Z.succ (Zpos (digits2_pos m) - 1))%Z
      by lia.
    rewrite !Z.pow_succ_r by lia. lia.
  - cbn. lia.
Qed.

(** A valid finite float has one mantissa and exponent for its value. *)
Lemma canonical_unique (m1 m2 : positive) (e1 e2 : Z) :
  valid_binary (S754_finite false m1 e1) = true ->
  valid_binary (S754_finite false m2 e2) = true ->
  (Zpos m1 * 2 ^ (e1 + 1074) = Zpos m2 * 2 ^ (e2 + 1074))%Z ->
  e1 = e2 /\ m1 = m2.
Proof.
  unfold valid_binary, bounded, canonical_mantissa, fexp, SpecFloat.emin.
  change prec with 53%Z. change emax with 1024%Z.
  intros H1 H2 Hv.
  apply andb_true_iff in H1 as [H1 _]. apply andb_true_iff in H2 as [H2 _].
  apply Z.eqb_eq in H1, H2.
  pose proof (digits2_pos_bounds m1) as B1. pose proof (digits2_pos_bounds m2) as B2.
  set (d1 := Zpos (digits2_pos m1)) in *. set (d2 := Zpos (digits2_pos m2)) in *.
  assert (Hd1 : (0 < d1)%Z) by (unfold d1; lia).
  assert (Hd2 : (0 < d2)%Z) by (unfold d2; lia).
  assert (He1 : (0 <= e1 + 1074)%Z) by lia.
  assert (He2 : (0 <= e2 + 1074)%Z) by lia.
  assert (Hlog : (d1 + e1 = d2 + e2)%Z).
  { assert (L1 : Z.log2 (Zpos m1 * 2 ^ (e1 + 1074)) = (d1 - 1 + (e1 + 1074))%Z).
    { apply Z.log2_unique; [lia|].
      replace (Z.succ (d1 - 1 + (e1 + 1074)))%Z with (d1 + (e1 + 1074))%Z by lia.
      rewrite (Z.pow_add_r 2 (d1 - 1)), (Z.pow_add_r 2 d1) by lia.
      assert (0 < 2 ^ (e1 + 1074))%Z by (apply Z.pow_pos_nonneg; lia).
      split; [apply Z.mul_le_mono_nonneg_r; lia|apply Z.mul_lt_mono_pos_r; lia]. }
    assert (L2 : Z.log2 (Zpos m2 * 2 ^ (e2 + 1074)) = (d2 - 1 + (e2 + 1074))%Z).
    { apply Z.log2_unique; [lia|].
      replace (Z.succ (d2 - 1 + (e2 + 1074)))%Z with (d2 + (e2 + 1074))%Z by lia.
      rewrite (Z.pow_add_r 2 (d2 - 1)), (Z.pow_add_r 2 d2) by lia.
      assert (0 < 2 ^ (e2 + 1074))%Z by (apply Z.pow_pos_nonneg; lia).
      split; [apply Z.mul_le_mono_nonneg_r; lia|apply Z.mul_lt_mono_pos_r; lia]. }
    rewrite Hv in L1. lia. }
  assert (He : e1 = e2) by (rewrite Hlog in H1; lia).
  split; [exact He|]. subst e2.
  assert (0 < 2 ^ (e1 + 1074))%Z by (apply Z.pow_pos_nonneg; lia).
  apply Z.mul_cancel_r in Hv; [|lia]. now injection Hv.
Qed.

Lemma valid_sign (s : bool) (m : positive) (e : Z) :
  valid_binary (S754_finite s m e) = valid_binary (S754_finite false m e).
Proof. reflexivity. Qed.

(** Two floats that stand for the same rational are equal for [==]. *)
Lemma same_value_eqb (x y : float) (q : Q) :
  stands_for x q -> stands_for y q -> (x =? y) = true.
Proof.
  unfold stands_for, exact_value. rewrite eqb_spec.
  pose proof (Prim2SF_valid x) as Vx. pose proof (Prim2SF_valid y) as Vy.
  destruct (Prim2SF x) as [sx|sx| |sx mx ex]; try contradiction;
    destruct (Prim2SF y) as [sy|sy| |sy my ey]; try contradiction;
    intros Hx Hy; rewrite <- Hy in Hx; unfold Qeq in Hx; cbn [Qnum Qden] in Hx;
    apply Z.mul_cancel_r in Hx; try discriminate.
  - reflexivity.
  - exfalso. assert (0 < Zpos my * 2 ^ (ey + 1074))%Z.
    { apply Z.mul_pos_pos; [lia|]. apply Z.pow_pos_nonneg; [lia|].
      revert Vy. unfold valid_binary, bounded, canonical_mantissa, fexp, SpecFloat.emin.
      change prec with 53%Z. change emax with 1024%Z. intro Vy.
      apply andb_true_iff in Vy as [Vy _]. apply Z.eqb_eq in Vy. lia. }
    destruct sy; cbn [cond_Zopp] in Hx; lia.
  - exfalso. assert (0 < Zpos mx * 2 ^ (ex + 1074))%Z.
    { apply Z.mul_pos_pos; [lia|]. apply Z.pow_pos_nonneg; [lia|].
      revert Vx. unfold valid_binary, bounded, canonical_mantissa, fexp, SpecFloat.emin.
      change prec with 53%Z. change emax with 1024%Z. intro Vx.
      apply andb_true_iff in Vx as [Vx _]. apply Z.eqb_eq in Vx. lia. }
    destruct sx; cbn [cond_Zopp] in Hx; lia.
  - assert (Px : (0 < Zpos mx * 2 ^ (ex + 1074))%Z).
    { apply Z.mul_pos_pos; [lia|]. apply Z.pow_pos_nonneg; [lia|].
      revert Vx. unfold valid_binary, bounded, canonical_mantissa, fexp, SpecFloat.emin.
      change prec with 53%Z. change emax with 1024%Z. intro Vx.
      apply andb_true_iff in Vx as [Vx _]. apply Z.eqb_eq in Vx. lia. }
    assert (Py : (0 < Zpos my * 2 ^ (ey + 1074))%Z).
    { apply Z.mul_pos_pos; [lia|]. apply Z.pow_pos_nonneg; [lia|].
      revert Vy. unfold valid_binary, bounded, canonical_mantissa, fexp, SpecFloat.emin.
      change prec with 53%Z. change emax with 1024%Z. intro Vy.
      apply andb_true_iff in Vy as [Vy _]. apply Z.eqb_eq in Vy. lia. }
    rewrite valid_sign in Vx, Vy.
    destruct sx, sy; cbn [cond_Zopp] in Hx; try lia.
    + assert (Hv : (Zpos mx * 2 ^ (ex + 1074) = Zpos my * 2 ^ (ey + 1074))%Z) by lia.
      destruct (canonical_unique _ _ _ _ Vx Vy Hv) as [-> ->].
      unfold SFeqb, SFcompare. rewrite Z.compare_refl.
      now rewrite Pos.compare_cont_refl.
    + destruct (canonical_unique _ _ _ _ Vx Vy Hx) as [-> ->].
      unfold SFeqb, SFcompare. rewrite Z.compare_refl.
      now rewrite Pos.compare_cont_refl.
Qed.

Lemma stands_for_unique (x : float) (a b : Q) :
  stands_for x a -> stands_for x b -> (a == b)%Q.
Proof.
  unfold stands_for. destruct (exact_value x); [|contradiction].
  intros Ha Hb. now rewrite <- Ha, <- Hb.
Qed.

Lemma stands_for_eq (x : float) (a b : Q) :
  stands_for x a -> (a == b)%Q -> stands_for x b.
Proof.
  unfold stands_for. destruct (exact_value x); [|contradiction].
  intros Ha Hab. now rewrite Ha.
Qed.

(** A float above zero stands for a positive rational. *)
Lemma positive_stands_for (x : float) (q : Q) :
  (0 <? x) = true -> stands_for x q -> (0 < q)%Q.
Proof.
  unfold stands_for, exact_value. rewrite ltb_spec.
  replace (Prim2SF 0) with (S754_zero false) by reflexivity.
  pose proof (Prim2SF_valid x) as Vx.
  destruct (Prim2SF x) as [s|s| |s m e]; try contradiction.
  - discriminate.
  - destruct s; [discriminate|]. intros _ Hq. rewrite <- Hq.
    unfold Qlt. cbn [Qnum Qden cond_Zopp]. rewrite Z.mul_0_l, Z.mul_1_r.
    apply Z.mul_pos_pos; [apply Pos2Z.is_pos|].
    apply Z.pow_pos_nonneg; [lia|].
    revert Vx. unfold valid_binary, bounded, canonical_mantissa, fexp, SpecFloat.emin.
    change prec with 53%Z. change emax with 1024%Z. intro Vx.
    apply andb_true_iff in Vx as [Vx _]. apply Z.eqb_eq in Vx. lia.
Qed.
(** ** annualize *)

Lemma b64_annualize_ok (amount : float) (p n : Z) :
  (0 < p)%Z -> (p < int_too_large)%Z -> (Z.abs n < int_too_large)%Z ->
  annualize amount p n = Ok (amount / to_float p * to_float n).
Proof.
  intros Hp Hlt Hn. unfold annualize.
  destruct (p <=? 0)%Z eqn:E; [apply Z.leb_le in E; lia|].
  rewrite py_div_int_ok by lia. simpl. apply py_mul_int_ok. exact Hn.
Qed.

Lemma b64_annualize_raises (amount : float) (p n : Z) :
  (p <= 0)%Z ->
  annualize amount p n = Raise (ValueError "ytd_pay_periods must be greater than zero.").
Proof.
  intro H. unfold annualize. apply Z.leb_le in H. now rewrite H.
Qed.

Lemma annualize_overflows (amount : float) (p n : Z) :
  (0 < p)%Z ->
  (int_too_large <= p)%Z \/ (int_too_large <= Z.abs n)%Z ->
  annualize amount p n = Raise OverflowError.
Proof.
  intros Hp H. unfold annualize.
  destruct (p <=? 0)%Z eqn:E; [apply Z.leb_le in E; lia|].
  destruct (Z_lt_le_dec p int_too_large) as [Hlt|Hge].
  - destruct H as [H|H]; [lia|].
    rewrite py_div_int_ok by lia. simpl.
    unfold py_mul_int. now rewrite float_of_int_raises by exact H.
  - unfold py_div_int. now rewrite float_of_int_raises by lia.
Qed.

(** C3, as stated, fails: the code rounds the quotient and then the product.
    [annualize(100.0, 3, 26)] returns 866.6666666666667, which is neither the
    float [100.0 * 26 / 3] (866.6666666666666) nor the rational 2600/3; and
    with a number of elapsed periods of [10 ** 400] it raises
    [OverflowError], an error other than the invalid-input one. *)
Lemma annualize_is_not_exact :
  (exists r,
     annualize 100 3 26 = Ok r
     /\ (r =? 100 * 26 / 3) = false
     /\ exists q, exact_value r = Some q /\ ~ (q == 100 * 26 / 3)%Q)
  /\ annualize 100 (10 ^ 400) 26 = Raise OverflowError.
Proof.
  split.
  - eexists. split; [vm_compute; reflexivity|].
    split; [vm_compute; reflexivity|].
    eexists. split; [vm_compute; reflexivity|].
    intro H. apply Qeq_bool_iff in H. vm_compute in H. discriminate.
  - vm_compute. reflexivity.
Qed.

(** When neither the conversions nor the two operations round, the result
    of [annualize] stands for [amount * periods_per_year / periods_elapsed]. *)
Lemma annualize_exact (amount : float) (p n : Z) :
  (0 < p)%Z ->
  exact_int p -> exact_int n ->
  exact div Qdiv amount (to_float p) ->
  exact mul Qmult (amount / to_float p) (to_float n) ->
  exists a,
    stands_for amount a
    /\ stands_for (amount / to_float p * to_float n)
         (a * inject_Z n / inject_Z p)%Q.
Proof.
  intros Hp Hip Hin (a & b & Ha & Hb & Hq) (c & d & Hc & Hd & Hr).
  exists a. split; [exact Ha|].
  pose proof (stands_for_unique _ _ _ Hb Hip) as Eb.
  pose proof (stands_for_unique _ _ _ Hc Hq) as Ec.
  pose proof (stands_for_unique _ _ _ Hd Hin) as Ed.
  apply (stands_for_eq _ _ _ Hr). rewrite Ec, Ed, Eb.
  assert (~ inject_Z p == 0)%Q by (unfold Qeq; simpl; lia).
  field. assumption.
Qed.

(** C3, amended.  For every amount, every number of elapsed periods and
    every number of periods per year, [annualize] has exactly one of three
    outcomes.  With a number of elapsed periods at or below zero it raises
    the [ValueError] of its guard.  With a positive one it raises
    [OverflowError] when the elapsed periods or the periods per year are too
    large to convert to a float, and otherwise it returns the float
    [amount / periods_elapsed * periods_per_year]: the quotient rounded to
    binary64, then the product rounded to binary64.  That float stands for
    [amount * periods_per_year / periods_elapsed] whenever the two
    conversions, the quotient and the product are exact. *)
Theorem annualize_outcomes (amount : float) (periods_elapsed periods_per_year : Z) :
  ((periods_elapsed <= 0)%Z ->
   annualize amount periods_elapsed periods_per_year
   = Raise (ValueError "ytd_pay_periods must be greater than zero."))
  /\ ((0 < periods_elapsed)%Z ->
      (int_too_large <= periods_elapsed)%Z
      \/ (int_too_large <= Z.abs periods_per_year)%Z ->
      annualize amount periods_elapsed periods_per_year = Raise OverflowError)
  /\ ((0 < periods_elapsed)%Z ->
      (periods_elapsed < int_too_large)%Z ->
      (Z.abs periods_per_year < int_too_large)%Z ->
      annualize amount periods_elapsed periods_per_year
      = Ok (amount / to_float periods_elapsed * to_float periods_per_year)
      /\ (exact_int periods_elapsed ->
          exact_int periods_per_year ->
          exact div Qdiv amount (to_float periods_elapsed) ->
          exact mul Qmult (amount / to_float periods_elapsed)
            (to_float periods_per_year) ->
          exists a,
            stands_for amount a
            /\ stands_for (amount / to_float periods_elapsed * to_float periods_per_year)
                 (a * inject_Z periods_per_year / inject_Z periods_elapsed)%Q)).
Proof.
  split; [apply b64_annualize_raises|].
  split; [apply annualize_overflows|].
  intros Hp Hlt Hn. split; [apply b64_annualize_ok; assumption|].
  apply annualize_exact. exact Hp.
Qed.

Lemma annualize_outcomes_witness :
  annualize 25000 0 26 = Raise (ValueError "ytd_pay_periods must be greater than zero.")
  /\ annualize 25000 (10 ^ 400) 26 = Raise OverflowError
  /\ annualize 25000 10 26 = Ok 65000
  /\ exists a,
       stands_for 25000 a
       /\ stands_for (25000 / to_float 10 * to_float 26) (a * inject_Z 26 / inject_Z 10)%Q.
Proof.
  split; [|split; [|split]].
  - apply (proj1 (annualize_outcomes 25000 0 26)). discriminate.
  - apply (proj1 (proj2 (annualize_outcomes 25000 (10 ^ 400) 26))).
    + reflexivity.
    + left. apply Z.leb_le. vm_compute. reflexivity.
  - apply (proj2 (proj2 (annualize_outcomes 25000 10 26))); reflexivity.
  - destruct (proj2 (proj2 (annualize_outcomes 25000 10 26)) eq_refl eq_refl eq_refl)
      as [_ H].
    apply H.
    + vm_compute. reflexivity.
    + vm_compute. reflexivity.
    + exists 25000%Q, 10%Q. repeat split; vm_compute; reflexivity.
    + exists 2500%Q, 26%Q. repeat split; vm_compute; reflexivity.
Defined.

(** ** The two loops of compute_results *)

Lemma b64_valid_entry_iff (entry : PaystubInput.t) :
  valid_entry entry = true <->
  exists periods_per_year,
    dict_find FREQUENCY_PERIODS (PaystubInput.pay_frequency entry) = Some periods_per_year
    /\ (0 < PaystubInput.ytd_pay_periods entry)%Z
    /\ (PaystubInput.ytd_pay_periods entry < int_too_large)%Z.
Proof.
  unfold valid_entry.
  destruct (dict_find FREQUENCY_PERIODS (PaystubInput.pay_frequency entry)) as [ppy|].
  - rewrite andb_true_iff, Z.ltb_lt, Z.ltb_lt. split; [eauto|]. now intros (_ & _ & H).
  - split; [discriminate|]. now intros (? & ? & _).
Qed.

Lemma periods_per_year_bounds (frequency : string) (periods_per_year : Z) :
  dict_find FREQUENCY_PERIODS frequency = Some periods_per_year ->
  (0 < periods_per_year <= 52)%Z.
Proof.
  unfold FREQUENCY_PERIODS. cbn [dict_find].
  repeat (destruct (String.eqb _ frequency); [intro H; injection H as <-; lia|]).
  discriminate.
Qed.

(** The annualized taxable income of a valid entry. *)
Lemma b64_entry_taxable_income_eq (entry : PaystubInput.t) (periods_per_year : Z) :
  dict_find FREQUENCY_PERIODS (PaystubInput.pay_frequency entry) = Some periods_per_year ->
  (0 < PaystubInput.ytd_pay_periods entry)%Z ->
  (PaystubInput.ytd_pay_periods entry < int_too_large)%Z ->
  entry_taxable_income entry
  = Ok (py_max 0
          (PaystubInput.ytd_gross entry / to_float (PaystubInput.ytd_pay_periods entry)
             * to_float periods_per_year
           - PaystubInput.ytd_pretax_deductions entry
               / to_float (PaystubInput.ytd_pay_periods entry)
               * to_float periods_per_year)).
Proof.
  intros Hf Hp Hlt. unfold entry_taxable_income, dict_get. rewrite Hf. simpl.
  pose proof (periods_per_year_bounds _ _ Hf) as Hb. pose proof periods_convert as Hc.
  rewrite !b64_annualize_ok by lia. reflexivity.
Qed.

Lemma b64_entry_error_none (entry : PaystubInput.t) :
  entry_error entry = None <-> valid_entry entry = true.
Proof.
  unfold entry_error, valid_entry.
  destruct (dict_find FREQUENCY_PERIODS (PaystubInput.pay_frequency entry)).
  - destruct (PaystubInput.ytd_pay_periods entry <=? 0)%Z eqn:E.
    + apply Z.leb_le in E. split; [discriminate|]. intro H.
      apply andb_true_iff in H as [H _]. apply Z.ltb_lt in H. lia.
    + apply Z.leb_gt in E.
      destruct (int_too_large <=? PaystubInput.ytd_pay_periods entry)%Z eqn:E'.
      * apply Z.leb_le in E'. split; [discriminate|]. intro H.
        apply andb_true_iff in H as [_ H]. apply Z.ltb_lt in H. lia.
      * apply Z.leb_gt in E'. split; [|reflexivity]. intros _.
        apply andb_true_iff. split; apply Z.ltb_lt; assumption.
  - split; discriminate.
Qed.

Lemma b64_entry_taxable_income_raises (entry : PaystubInput.t) (err : exn) :
  entry_error entry = Some err -> entry_taxable_income entry = Raise err.
Proof.
  unfold entry_error, entry_taxable_income, dict_get.
  destruct (dict_find FREQUENCY_PERIODS (PaystubInput.pay_frequency entry)); simpl.
  - destruct (PaystubInput.ytd_pay_periods entry <=? 0)%Z eqn:E.
    + intro H. injection H as <-. apply Z.leb_le in E.
      rewrite b64_annualize_raises by exact E. reflexivity.
    + apply Z.leb_gt in E.
      destruct (int_too_large <=? PaystubInput.ytd_pay_periods entry)%Z eqn:E';
        [|discriminate].
      intro H. injection H as <-. apply Z.leb_le in E'.
      rewrite annualize_overflows by (try left; assumption). reflexivity.
  - intro H. injection H as <-. reflexivity.
Qed.

Lemma b64_entry_taxable_income_ok (entry : PaystubInput.t) :
  valid_entry entry = true -> exists t, entry_taxable_income entry = Ok t.
Proof.
  intro H. apply b64_valid_entry_iff in H as (ppy & Hf & Hp & Hlt).
  eexists. apply b64_entry_taxable_income_eq; eassumption.
Qed.

Lemma b64_entry_taxable_income_inv (entry : PaystubInput.t) (t : float) :
  entry_taxable_income entry = Ok t -> valid_entry entry = true.
Proof.
  intro H. apply b64_entry_error_none.
  destruct (entry_error entry) as [err|] eqn:E; [|reflexivity].
  rewrite (b64_entry_taxable_income_raises _ _ E) in H. discriminate.
Qed.

Lemma b64_taxable_income_loop_ok (inputs : list PaystubInput.t) :
  forall taxable,
    Forall (fun e => valid_entry e = true) inputs ->
    exists taxable',
      taxable_income_loop inputs taxable = Ok taxable'
      /\ forall key,
           dict_find taxable key <> None \/ In key (map PaystubInput.spouse inputs) ->
           dict_find taxable' key <> None.
Proof.
  induction inputs as [|entry rest IH]; intros taxable Hvalid; simpl.
  - exists taxable. split; [reflexivity|]. intros key [H|[]]. exact H.
  - inversion Hvalid as [|? ? Hentry Hrest]; subst.
    destruct (b64_entry_taxable_income_ok entry Hentry) as (t & Et).
    rewrite Et. simpl.
    destruct (IH (dict_set taxable (PaystubInput.spouse entry) t) Hrest)
      as (taxable' & E & Hkeys).
    exists taxable'. split; [exact E|].
    intros key [H|[<-|H]]; apply Hkeys.
    + left. apply dict_find_set_keeps. exact H.
    + left. rewrite dict_find_set_same. discriminate.
    + right. exact H.
Qed.

Lemma b64_taxable_income_loop_inv (inputs : list PaystubInput.t) :
  forall taxable taxable',
    taxable_income_loop inputs taxable = Ok taxable' ->
    Forall (fun e => valid_entry e = true) inputs.
Proof.
  induction inputs as [|entry rest IH]; intros taxable taxable' H; simpl in H.
  - constructor.
  - destruct (entry_taxable_income entry) as [t|err] eqn:Et; simpl in H; [|discriminate].
    constructor; [eapply b64_entry_taxable_income_inv; eassumption|].
    eapply IH. eassumption.
Qed.

Lemma b64_taxable_income_loop_raises (before after : list PaystubInput.t)
  (entry : PaystubInput.t) (err : exn) :
  forall taxable,
    Forall (fun e => valid_entry e = true) before ->
    entry_error entry = Some err ->
    taxable_income_loop (before ++ entry :: after) taxable = Raise err.
Proof.
  induction before as [|first rest IH]; intros taxable Hvalid Herr; simpl.
  - rewrite (b64_entry_taxable_income_raises _ _ Herr). reflexivity.
  - inversion Hvalid as [|? ? Hfirst Hrest]; subst.
    destruct (b64_entry_taxable_income_ok first Hfirst) as (t & Et).
    rewrite Et. simpl. apply IH; assumption.
Qed.

(** The four guarded divisions of the loop body never divide by zero. *)
Lemma b64_guarded_share (spouse_taxable total_taxable : float) :
  (if 0 <? total_taxable then py_div spouse_taxable total_taxable else Ok 0)
  = Ok (if 0 <? total_taxable then spouse_taxable / total_taxable else 0).
Proof.
  destruct (0 <? total_taxable) eqn:E; [|reflexivity].
  unfold py_div. now rewrite ltb_not_zero.
Qed.

Lemma b64_guarded_per_period (remaining_tax : float) (remaining_periods : Z) :
  (remaining_periods < int_too_large)%Z ->
  (if (0 <? remaining_periods)%Z
   then py_div_int remaining_tax remaining_periods else Ok 0)
  = Ok (if (0 <? remaining_periods)%Z
        then remaining_tax / to_float remaining_periods else 0).
Proof.
  intro H. destruct (0 <? remaining_periods)%Z eqn:E; [|reflexivity].
  apply Z.ltb_lt in E. apply py_div_int_ok; lia.
Qed.

Lemma b64_guarded_gross (annual_gross : float) (periods_per_year : Z) :
  (Z.abs periods_per_year < int_too_large)%Z ->
  (if negb (periods_per_year =? 0)%Z
   then py_div_int annual_gross periods_per_year else Ok 0)
  = Ok (if negb (periods_per_year =? 0)%Z
        then annual_gross / to_float periods_per_year else 0).
Proof.
  intro H. destruct (periods_per_year =? 0)%Z eqn:E; simpl; [reflexivity|].
  apply Z.eqb_neq in E. apply py_div_int_ok; assumption.
Qed.

Lemma b64_guarded_rate (per_period_target gross_per_period : float) :
  (if truthy gross_per_period
   then py_div per_period_target gross_per_period else Ok 0)
  = Ok (if truthy gross_per_period
        then per_period_target / gross_per_period else 0).
Proof.
  unfold truthy, py_div. destruct (gross_per_period =? 0); reflexivity.
Qed.

(** What [entry_result] returns for a valid entry whose spouse is a key of
    the dictionary. *)
Lemma b64_entry_result_ok (taxable_by_spouse : dict float) (total_taxable total_tax : float)
  (entry : PaystubInput.t) (periods_per_year : Z) (spouse_taxable : float) :
  dict_find FREQUENCY_PERIODS (PaystubInput.pay_frequency entry) = Some periods_per_year ->
  (0 < PaystubInput.ytd_pay_periods entry)%Z ->
  (PaystubInput.ytd_pay_periods entry < int_too_large)%Z ->
  dict_find taxable_by_spouse (PaystubInput.spouse entry) = Some spouse_taxable ->
  exists r,
    entry_result taxable_by_spouse total_taxable total_tax entry = Ok r
    /\ TaxResult.spouse r = PaystubInput.spouse entry
    /\ TaxResult.annualized_taxable_income r = spouse_taxable
    /\ TaxResult.total_tax_share r
       = total_tax * (if 0 <? total_taxable then spouse_taxable / total_taxable else 0).
Proof.
  intros Hf Hp Hlt Hs. unfold entry_result, dict_get. rewrite Hf, Hs. simpl.
  pose proof (periods_per_year_bounds _ _ Hf) as Hb. pose proof periods_convert as Hc.
  rewrite !b64_annualize_ok by lia. simpl.
  rewrite b64_guarded_share. simpl.
  rewrite b64_guarded_per_period by lia. simpl.
  rewrite b64_guarded_gross by lia. simpl.
  rewrite b64_guarded_rate. simpl.
  eexists. split; [reflexivity|]. simpl. auto.
Qed.

Lemma b64_results_loop_ok (taxable_by_spouse : dict float) (total_taxable total_tax : float)
  (inputs : list PaystubInput.t) :
  forall results,
    Forall (fun e => valid_entry e = true) inputs ->
    (forall key, In key (map PaystubInput.spouse inputs) ->
                 dict_find taxable_by_spouse key <> None) ->
    exists rs,
      results_loop taxable_by_spouse total_taxable total_tax inputs results
      = Ok (results ++ rs)%list
      /\ List.length rs = List.length inputs.
Proof.
  induction inputs as [|entry rest IH]; intros results Hvalid Hkeys; simpl.
  - exists []. now rewrite app_nil_r.
  - inversion Hvalid as [|? ? Hentry Hrest]; subst.
    apply b64_valid_entry_iff in Hentry as (ppy & Hf & Hp & Hlt).
    destruct (dict_find taxable_by_spouse (PaystubInput.spouse entry)) as [st|] eqn:Hs;
      [|exfalso; apply (Hkeys (PaystubInput.spouse entry)); [left; reflexivity|exact Hs]].
    destruct (b64_entry_result_ok taxable_by_spouse total_taxable total_tax entry ppy st
                Hf Hp Hlt Hs) as (r & E & _).
    rewrite E. simpl.
    destruct (IH (results ++ [r])%list Hrest) as (rs & Ers & Hlen).
    { intros key Hin. apply Hkeys. right. exact Hin. }
    exists (r :: rs). rewrite Ers, <- app_assoc. simpl. auto.
Qed.

(** ** compute_results *)

Lemma b64_compute_results_ok (inputs : list PaystubInput.t) (profile : FederalTaxProfile.t) :
  Forall (fun e => valid_entry e = true) inputs ->
  exists results,
    compute_results inputs profile = Ok results
    /\ List.length results = List.length inputs.
Proof.
  intro Hvalid. unfold compute_results, compute_taxable_income.
  destruct (b64_taxable_income_loop_ok inputs [] Hvalid) as (d & Ed & Hkeys).
  rewrite Ed. simpl.
  destruct (b64_results_loop_ok d (py_sum (dict_values d))
              (compute_federal_tax (py_sum (dict_values d)) profile) inputs [] Hvalid)
    as (rs & E & Hlen).
  { intros key Hin. apply Hkeys. right. exact Hin. }
  exists rs. split; [exact E|exact Hlen].
Qed.

Lemma b64_compute_results_valid (inputs : list PaystubInput.t) (profile : FederalTaxProfile.t)
  (results : list TaxResult.t) :
  compute_results inputs profile = Ok results ->
  Forall (fun e => valid_entry e = true) inputs.
Proof.
  unfold compute_results. intro H.
  destruct (compute_taxable_income inputs) as [d|err] eqn:Ed; simpl in H; [|discriminate].
  eapply b64_taxable_income_loop_inv. exact Ed.
Qed.

(** Every list of entries is all valid or has a first entry that is not. *)
Lemma first_invalid_entry (inputs : list PaystubInput.t) :
  Forall (fun e => valid_entry e = true) inputs
  \/ exists before entry after err,
       inputs = (before ++ entry :: after)%list
       /\ Forall (fun e => valid_entry e = true) before
       /\ entry_error entry = Some err.
Proof.
  induction inputs as [|entry rest IH].
  - left. constructor.
  - destruct (entry_error entry) as [err|] eqn:Eerr.
    + right. exists [], entry, rest, err. auto.
    + apply b64_entry_error_none in Eerr.
      destruct IH as [Hall|(before & e & after & err & -> & Hbefore & Herr)].
      * left. constructor; assumption.
      * right. exists (entry :: before), e, after, err.
        split; [reflexivity|]. split; [constructor; assumption|exact Herr].
Qed.

(** X5.  [compute_results] returns exactly when every entry has a pay
    frequency of [FREQUENCY_PERIODS] and a number of paid periods that is
    positive and converts to a float, and then it returns one result per
    entry.  Otherwise it raises the exception of the first entry that has
    not: the [KeyError] of its frequency, or else the [ValueError] of
    [annualize], or else the [OverflowError] of the conversion.  Every list
    of entries is in one of the two cases, so these are all the outcomes. *)
Theorem compute_results_outcomes (inputs : list PaystubInput.t)
  (profile : FederalTaxProfile.t) :
  ((exists results, compute_results inputs profile = Ok results)
   <-> Forall (fun e => valid_entry e = true) inputs)
  /\ (forall results,
        compute_results inputs profile = Ok results ->
        List.length results = List.length inputs)
  /\ (forall before entry after err,
        inputs = (before ++ entry :: after)%list ->
        Forall (fun e => valid_entry e = true) before ->
        entry_error entry = Some err ->
        compute_results inputs profile = Raise err)
  /\ (Forall (fun e => valid_entry e = true) inputs
      \/ exists before entry after err,
           inputs = (before ++ entry :: after)%list
           /\ Forall (fun e => valid_entry e = true) before
           /\ entry_error entry = Some err).
Proof.
  split; [|split; [|split]].
  - split.
    + intros (results & H). eapply b64_compute_results_valid. exact H.
    + intro H. destruct (b64_compute_results_ok inputs profile H) as (results & E & _).
      eauto.
  - intros results H.
    destruct (b64_compute_results_ok inputs profile (b64_compute_results_valid _ _ _ H))
      as (results' & E & Hlen).
    rewrite E in H. injection H as <-. exact Hlen.
  - intros before entry after err -> Hvalid Herr.
    unfold compute_results, compute_taxable_income.
    rewrite (b64_taxable_income_loop_raises _ _ _ _ [] Hvalid Herr). reflexivity.
  - apply first_invalid_entry.
Qed.

Lemma compute_results_outcomes_witness :
  compute_results
    [weekly_entry; PaystubInput.Build "spouse_b" "biweekly" 0 0 0 0 0] profile_2024
  = Raise (ValueError "ytd_pay_periods must be greater than zero.")
  /\ compute_results
       [weekly_entry; PaystubInput.Build "spouse_b" "daily" 0 0 0 0 0] profile_2024
     = Raise (KeyError "daily")
  /\ compute_results
       [weekly_entry; PaystubInput.Build "spouse_b" "biweekly" (10 ^ 400) 0 0 0 0]
       profile_2024
     = Raise OverflowError.
Proof.
  split; [|split].
  - apply (proj1 (proj2 (proj2 (compute_results_outcomes _ profile_2024)))
             [weekly_entry] (PaystubInput.Build "spouse_b" "biweekly" 0 0 0 0 0) []);
      [reflexivity|repeat constructor|reflexivity].
  - apply (proj1 (proj2 (proj2 (compute_results_outcomes _ profile_2024)))
             [weekly_entry] (PaystubInput.Build "spouse_b" "daily" 0 0 0 0 0) []);
      [reflexivity|repeat constructor|reflexivity].
  - apply (proj1 (proj2 (proj2 (compute_results_outcomes _ profile_2024)))
             [weekly_entry] (PaystubInput.Build "spouse_b" "biweekly" (10 ^ 400) 0 0 0 0) []);
      [reflexivity|repeat constructor|vm_compute; reflexivity].
Defined.

(** ** Two records *)

Lemma b64_compute_taxable_income_pair (e1 e2 : PaystubInput.t) (t1 t2 : float) :
  entry_taxable_income e1 = Ok t1 ->
  entry_taxable_income e2 = Ok t2 ->
  compute_taxable_income [e1; e2]
  = Ok (if String.eqb (PaystubInput.spouse e1) (PaystubInput.spouse e2)
        then [(PaystubInput.spouse e1, t2)]
        else [(PaystubInput.spouse e1, t1); (PaystubInput.spouse e2, t2)]).
Proof.
  intros E1 E2. unfold compute_taxable_income. simpl. rewrite E1. simpl. rewrite E2.
  simpl. destruct (String.eqb (PaystubInput.spouse e1) (PaystubInput.spouse e2));
    reflexivity.
Qed.

(** C2, as stated, fails, in two ways.  Two records that carry the same
    spouse identifier share one entry of the dictionary, and each is
    apportioned the whole joint tax: the shares sum to 25,230 against a joint
    tax of 12,615.  And with distinct identifiers the quotients and the
    products are rounded: for 26 weekly periods with 30,000 paid and 13
    biweekly periods with 70,000 paid the joint tax is 28,191 and the shares,
    8457.3 and 19733.699999999997, sum to 28190.999999999996. *)
Lemma shares_do_not_sum_to_the_tax :
  (exists taxable r1 r2,
     compute_taxable_income [whole_year_entry; whole_year_entry] = Ok taxable
     /\ (0 <? py_sum (dict_values taxable)) = true
     /\ compute_federal_tax (py_sum (dict_values taxable)) profile_2024 = 12615
     /\ compute_results [whole_year_entry; whole_year_entry] profile_2024 = Ok [r1; r2]
     /\ TaxResult.total_tax_share r1 + TaxResult.total_tax_share r2 = 25230)
  /\ (exists taxable r1 r2,
        compute_taxable_income [weekly_entry; biweekly_entry] = Ok taxable
        /\ (0 <? py_sum (dict_values taxable)) = true
        /\ compute_federal_tax (py_sum (dict_values taxable)) profile_2024 = 28191
        /\ compute_results [weekly_entry; biweekly_entry] profile_2024 = Ok [r1; r2]
        /\ (TaxResult.total_tax_share r1 + TaxResult.total_tax_share r2 <? 28191) = true
        /\ (TaxResult.total_tax_share r1 + TaxResult.total_tax_share r2 =? 28191) = false).
Proof.
  split.
  - do 3 eexists. split; [vm_compute; reflexivity|].
    split; [vm_compute; reflexivity|]. split; [vm_compute; reflexivity|].
    split; [vm_compute; reflexivity|]. vm_compute. reflexivity.
  - do 3 eexists. split; [vm_compute; reflexivity|].
    split; [vm_compute; reflexivity|]. split; [vm_compute; reflexivity|].
    split; [vm_compute; reflexivity|]. split; vm_compute; reflexivity.
Qed.

(** When no operation of the apportionment rounds, the two shares sum to the
    joint tax. *)
Lemma exact_shares_sum (t1 t2 total_tax : float) :
  (0 <? 0 + t1 + t2) = true ->
  exact add Qplus 0 t1 ->
  exact add Qplus (0 + t1) t2 ->
  exact div Qdiv t1 (0 + t1 + t2) ->
  exact div Qdiv t2 (0 + t1 + t2) ->
  exact mul Qmult total_tax (t1 / (0 + t1 + t2)) ->
  exact mul Qmult total_tax (t2 / (0 + t1 + t2)) ->
  exact add Qplus (total_tax * (t1 / (0 + t1 + t2))) (total_tax * (t2 / (0 + t1 + t2))) ->
  (total_tax * (t1 / (0 + t1 + t2)) + total_tax * (t2 / (0 + t1 + t2)) =? total_tax)
  = true.
Proof.
  intros Hpos (z & a & Hz & Ha & Hza) (u & b & Hu & Hb & HT)
    (a' & T1 & Ha' & HT1 & Hq1) (b' & T2 & Hb' & HT2 & Hq2)
    (c & q1 & Hc & Hq1' & Hs1) (c' & q2 & Hc' & Hq2' & Hs2)
    (s1 & s2 & Hs1' & Hs2' & HS).
  assert (H0 : stands_for 0 0%Q) by (vm_compute; reflexivity).
  pose proof (stands_for_unique _ _ _ Hz H0) as Ez.
  pose proof (stands_for_unique _ _ _ Hu Hza) as Eu.
  pose proof (stands_for_unique _ _ _ Ha' Ha) as Ea.
  pose proof (stands_for_unique _ _ _ Hb' Hb) as Eb.
  pose proof (stands_for_unique _ _ _ HT1 HT) as ET1.
  pose proof (stands_for_unique _ _ _ HT2 HT) as ET2.
  pose proof (stands_for_unique _ _ _ Hq1' Hq1) as Eq1.
  pose proof (stands_for_unique _ _ _ Hq2' Hq2) as Eq2.
  pose proof (stands_for_unique _ _ _ Hc' Hc) as Ec.
  pose proof (stands_for_unique _ _ _ Hs1' Hs1) as Es1.
  pose proof (stands_for_unique _ _ _ Hs2' Hs2) as Es2.
  pose proof (positive_stands_for _ _ Hpos HT) as Hsum.
  apply (same_value_eqb _ _ c); [|exact Hc].
  apply (stands_for_eq _ _ _ HS).
  rewrite Es1, Es2, Ec, Eq1, Eq2, Ea, Eb, ET1, ET2.
  rewrite Eu, Ez in *. field. lra.
Qed.

(** C2, amended.  For every pair of input records with distinct spouse
    identifiers whose joint annualized taxable income is strictly positive,
    [compute_results] returns two results, and the [total_tax_share] of each
    is the joint tax times the quotient of the record's own taxable income by
    the joint taxable income, the quotient and the product each rounded to
    binary64; the joint tax is [compute_federal_tax] of the joint taxable
    income, the sum of the two incomes.  The two shares sum to the joint tax
    whenever none of these operations rounds: the additions of the joint
    income, the two quotients, the two products and the addition of the
    shares. *)
Theorem shares_follow_the_apportionment (e1 e2 : PaystubInput.t)
  (profile : FederalTaxProfile.t) (t1 t2 : float) :
  PaystubInput.spouse e1 <> PaystubInput.spouse e2 ->
  entry_taxable_income e1 = Ok t1 ->
  entry_taxable_income e2 = Ok t2 ->
  (0 <? py_sum [t1; t2]) = true ->
  exists taxable r1 r2,
    compute_taxable_income [e1; e2] = Ok taxable
    /\ py_sum (dict_values taxable) = py_sum [t1; t2]
    /\ compute_results [e1; e2] profile = Ok [r1; r2]
    /\ TaxResult.total_tax_share r1
       = compute_federal_tax (py_sum [t1; t2]) profile * (t1 / py_sum [t1; t2])
    /\ TaxResult.total_tax_share r2
       = compute_federal_tax (py_sum [t1; t2]) profile * (t2 / py_sum [t1; t2])
    /\ (exact add Qplus 0 t1 ->
        exact add Qplus (0 + t1) t2 ->
        exact div Qdiv t1 (py_sum [t1; t2]) ->
        exact div Qdiv t2 (py_sum [t1; t2]) ->
        exact mul Qmult (compute_federal_tax (py_sum [t1; t2]) profile)
          (t1 / py_sum [t1; t2]) ->
        exact mul Qmult (compute_federal_tax (py_sum [t1; t2]) profile)
          (t2 / py_sum [t1; t2]) ->
        exact add Qplus (TaxResult.total_tax_share r1) (TaxResult.total_tax_share r2) ->
        (TaxResult.total_tax_share r1 + TaxResult.total_tax_share r2
         =? compute_federal_tax (py_sum [t1; t2]) profile) = true).
Proof.
  intros Hne E1 E2 Hpos.
  pose proof (b64_compute_taxable_income_pair e1 e2 t1 t2 E1 E2) as Ed.
  apply String.eqb_neq in Hne. rewrite Hne in Ed.
  pose proof (b64_entry_taxable_income_inv _ _ E1) as Hv1. apply b64_valid_entry_iff in Hv1.
  pose proof (b64_entry_taxable_income_inv _ _ E2) as Hv2. apply b64_valid_entry_iff in Hv2.
  destruct Hv1 as (ppy1 & Hf1 & Hp1 & Hlt1). destruct Hv2 as (ppy2 & Hf2 & Hp2 & Hlt2).
  set (d := [(PaystubInput.spouse e1, t1); (PaystubInput.spouse e2, t2)]) in *.
  assert (Hs1 : dict_find d (PaystubInput.spouse e1) = Some t1).
  { unfold d. simpl. now rewrite String.eqb_refl. }
  assert (Hs2 : dict_find d (PaystubInput.spouse e2) = Some t2).
  { unfold d. simpl. now rewrite Hne, String.eqb_refl. }
  assert (Hsum : py_sum (dict_values d) = py_sum [t1; t2]) by reflexivity.
  destruct (b64_entry_result_ok d (py_sum (dict_values d))
              (compute_federal_tax (py_sum (dict_values d)) profile) e1 ppy1 t1
              Hf1 Hp1 Hlt1 Hs1) as (r1 & Er1 & _ & _ & Hshare1).
  destruct (b64_entry_result_ok d (py_sum (dict_values d))
              (compute_federal_tax (py_sum (dict_values d)) profile) e2 ppy2 t2
              Hf2 Hp2 Hlt2 Hs2) as (r2 & Er2 & _ & _ & Hshare2).
  rewrite Hsum in Hshare1, Hshare2. rewrite Hpos in Hshare1, Hshare2.
  exists d, r1, r2. split; [exact Ed|]. split; [exact Hsum|]. split.
  { unfold compute_results. rewrite Ed. cbn [bind results_loop].
    rewrite Er1. cbn [bind]. rewrite Er2. reflexivity. }
  split; [exact Hshare1|]. split; [exact Hshare2|].
  rewrite Hshare1, Hshare2. apply exact_shares_sum. exact Hpos.
Qed.

Lemma shares_follow_the_apportionment_witness :
  exists taxable r1 r2,
    compute_taxable_income [even_entry_a; even_entry_b] = Ok taxable
    /\ py_sum (dict_values taxable) = 129200
    /\ compute_results [even_entry_a; even_entry_b] profile_2024 = Ok [r1; r2]
    /\ TaxResult.total_tax_share r1 = 6307.5
    /\ TaxResult.total_tax_share r2 = 6307.5
    /\ (TaxResult.total_tax_share r1 + TaxResult.total_tax_share r2 =? 12615) = true.
Proof.
  destruct (shares_follow_the_apportionment even_entry_a even_entry_b profile_2024
              64600 64600) as (taxable & r1 & r2 & Ed & Hsum & E & H1 & H2 & Hexact).
  - discriminate.
  - vm_compute. reflexivity.
  - vm_compute. reflexivity.
  - vm_compute. reflexivity.
  - exists taxable, r1, r2. split; [exact Ed|]. split; [exact Hsum|].
    split; [exact E|]. split; [exact H1|]. split; [exact H2|].
    apply Hexact.
    + exists 0%Q, 64600%Q. repeat split; vm_compute; reflexivity.
    + exists 64600%Q, 64600%Q. repeat split; vm_compute; reflexivity.
    + exists 64600%Q, 129200%Q. repeat split; vm_compute; reflexivity.
    + exists 64600%Q, 129200%Q. repeat split; vm_compute; reflexivity.
    + exists 12615%Q, (1 # 2)%Q. repeat split; vm_compute; reflexivity.
    + exists 12615%Q, (1 # 2)%Q. repeat split; vm_compute; reflexivity.
    + rewrite H1, H2.
      exists (12615 # 2)%Q, (12615 # 2)%Q. repeat split; vm_compute; reflexivity.
Defined.

End Binary64Facts.

